(** * The real-time frame pipeline of the object-detection web app

    A shallow embedding of the two places where the repository holds
    pipeline logic:

    - [FrameQueue], the Python class of [report.md] (section
      "Backpressure Policy");
    - [Camera], the React component of
      [frontend/components/ServerInferenceCamera.tsx]: its refs and state
      hooks, [sendFrameToServer], [drawDetections], [runServerInference],
      [runLiveDetection] and the handlers that drive them.

    The component is asynchronous: an activation of [runLiveDetection]
    runs until its next [await] and is resumed by the browser.  It is
    modelled as a step function over the component state, one step per
    browser event.  The events are those of the live-detection path: the
    "Live Detection" and "Reset" buttons, the visibility change of the
    tab, the end of a request, and the animation frame an activation
    waits for.  Time stamps are whole milliseconds, and a difference of
    two of them is rounded as a double is.  The canvas is rendered only
    while the tab is visible: each time the camera view is put up it
    has a canvas of its own, and a drawing context obtained before
    keeps the canvas it came from.

    Further on: [Photo], the "Capture Photo" path of the same component
    ([processImage]) run side by side with the live loop; [Style], the
    colour strings of a detection box; and [Bench], the argument
    handling and the statistics of [bench/run_bench.sh]. *)

From Stdlib Require Import ZArith QArith Lia Ascii.
From stdpp Require Import base option list gmap strings pretty.
From stdpp Require Import sorting.

Local Open Scope Z_scope.

(* ===================================================================== *)
(** ** FrameQueue (report.md, lines 115-126)                              *)
(* ===================================================================== *)

Module FrameQueue.

(** What a Python call can raise here. *)
Inductive exception :=
| AttributeError (name : string)
| IndexError.

Inductive result (A : Type) :=
| Ok (a : A)
| Raise (e : exception).
Arguments Ok {A} a.
Arguments Raise {A} e.

Section WithFrame.
Context {Frame : Type}.

(** [collections.deque(maxlen=n)]: the items, oldest first, and the
    bound given at construction. *)
Record deque := Deque { items : list Frame; maxlen : nat }.

(** [len(d)] *)
Definition len (d : deque) : nat := length (items d).

(** [d.append(x)]: once [maxlen] items are held, an item is discarded
    from the left end for each one appended on the right. *)
Definition append (x : Frame) (d : deque) : deque :=
  if (len d <? maxlen d)%nat then Deque (items d ++ [x]) (maxlen d)
  else match maxlen d with
       | O => d
       | S _ => Deque (tail (items d) ++ [x]) (maxlen d)
       end.

(** [d.popleft()]: raises [IndexError] on an empty deque. *)
Definition popleft (d : deque) : result (Frame * deque) :=
  match items d with
  | [] => Raise IndexError
  | x :: rest => Ok (x, Deque rest (maxlen d))
  end.

(** An instance of the class.  [__init__] assigns [queue] and
    [dropped_frames] only; [max_size] is the attribute that
    [add_frame] reads, present only if something assigned it. *)
Record FrameQueue := Build {
  queue : deque;
  dropped_frames : nat;
  max_size : option nat
}.

(** [def __init__(self, max_size=5)] *)
Definition __init__ (max_size : nat) : FrameQueue :=
  {| queue := Deque [] max_size; dropped_frames := 0; max_size := None |}.

Definition default_max_size : nat := 5.

(** [def add_frame(self, frame)].  The method has no [return]
    statement, so the caller receives Python's [None]: the first
    component of the result. *)
Definition add_frame (self : FrameQueue) (frame : Frame)
  : result (option Frame * FrameQueue) :=
  match max_size self with
  | None => Raise (AttributeError "max_size")
  | Some m =>
      if (m <=? len (queue self))%nat then
        match popleft (queue self) with
        | Raise e => Raise e
        | Ok (_, q) =>
            Ok (None, {| queue := append frame q;
                         dropped_frames := S (dropped_frames self);
                         max_size := max_size self |})
        end
      else
        Ok (None, {| queue := append frame (queue self);
                     dropped_frames := dropped_frames self;
                     max_size := max_size self |})
  end.

(** A caller offering frames one after the other, keeping what each
    call returned. *)
Fixpoint add_frames (self : FrameQueue) (frames : list Frame)
  : result (list (option Frame) * FrameQueue) :=
  match frames with
  | [] => Ok ([], self)
  | f :: rest =>
      match add_frame self f with
      | Raise e => Raise e
      | Ok (r, self1) =>
          match add_frames self1 rest with
          | Raise e => Raise e
          | Ok (rs, self2) => Ok (r :: rs, self2)
          end
      end
  end.

(** Modelled from the spec: [FrameQueue.takeLatest], which the class
    of [report.md] does not have.  Section 4.1: "takeLatest removes
    and returns the most recently enqueued frame (LIFO semantics)";
    "All frames skipped by a LIFO pop are also counted as implicit
    drops"; "every drop ... increments a process-wide dropped_frames
    counter"; "takeLatest on an empty queue returns nil without
    error".  A drop is "a frame removed from the pipeline"
    (glossary), so the skipped frames leave the queue. *)
Definition takeLatest (self : FrameQueue) : result (option Frame * FrameQueue) :=
  match rev (items (queue self)) with
  | [] => Ok (None, self)
  | newest :: skipped =>
      Ok (Some newest,
          {| queue := Deque [] (maxlen (queue self));
             dropped_frames := (dropped_frames self + length skipped)%nat;
             max_size := max_size self |})
  end.

(** The state [add_frame] is written for: the attribute it reads holds
    the bound of the deque, and the deque is within it. *)
Definition well_formed (N : nat) (self : FrameQueue) : Prop :=
  max_size self = Some N ∧ maxlen (queue self) = N ∧ (len (queue self) <= N)%nat.

End WithFrame.
Arguments deque : clear implicits.
Arguments FrameQueue : clear implicits.

End FrameQueue.

(* ===================================================================== *)
(** ** JavaScript values the component computes with                      *)
(* ===================================================================== *)

Module Js.

(** A number as the component meets it: epoch-millisecond stamps, their
    differences and a frame counter, all integers that a double holds
    exactly; [None] is [NaN], what arithmetic on a missing or
    non-numeric field evaluates to. *)
Definition number : Type := option Z.

Definition NaN : number := None.

(** The double nearest to the integer [n], ties to the even significand:
    integers up to [2^53] in magnitude are doubles themselves; a larger
    one keeps its 53 leading bits.  (No integer the component computes
    comes near [2^1024], where a double overflows.) *)
Definition round (n : Z) : Z :=
  let a := Z.abs n in
  if a <=? 2 ^ 53 then n
  else
    let e := Z.log2 a - 52 in
    let q := Z.shiftr a e in
    let r := a - Z.shiftl q e in
    let half := Z.shiftl 1 (e - 1) in
    let q' := if r <? half then q
              else if half <? r then q + 1
              else if Z.even q then q else q + 1 in
    Z.sgn n * Z.shiftl q' e.

(** [a - b]: the exact difference, rounded to a double. *)
Definition sub (a b : number) : number :=
  match a, b with
  | Some x, Some y => Some (round (x - y))
  | _, _ => NaN
  end.

(** A stamp in whole milliseconds that a double holds exactly and that
    differs from any other such stamp by at most [2^53]. *)
Definition stamp (z : Z) : Prop := 0 <= z <= 2 ^ 53.

(** [NaN], or a whole number of magnitude at most [2^53]: every one of
    these is a double. *)
Definition safe (n : number) : Prop :=
  match n with
  | Some z => Z.abs z <= 2 ^ 53
  | None => True
  end.

(** [n++] on a counter that starts at 0: doubles are exact up to
    [2^53], where [n + 1] rounds back to [n]. *)
Definition incr (n : Z) : Z := if n <? 2 ^ 53 then n + 1 else n.

Inductive error :=
| TypeError (msg : string)
| SyntaxError (msg : string)
| Error (msg : string).

(** How a call ends: with a value, or by throwing. *)
Inductive completion (A : Type) :=
| Normal (a : A)
| Throw (e : error).
Arguments Normal {A} a.
Arguments Throw {A} e.

End Js.

(* ===================================================================== *)
(** ** ServerInferenceCamera.tsx                                          *)
(* ===================================================================== *)

Module Camera.

(** [interface ServerInferenceCameraProps], the fields the pipeline reads. *)
Record Props := {
  modelName : string;
  currentModelResolution : list Z;
  serverUrl : string
}.

(** [interface Detection] *)
Record Detection := {
  label : string;
  score : Q;
  xmin : Q;
  ymin : Q;
  xmax : Q;
  ymax : Q
}.

(** What has been painted on the overlay canvas since it was last cleared. *)
Inductive paint :=
| DrawImage (image : string)  (* [capture]: the video frame, over the whole canvas *)
| DrawBox (d : Detection).    (* [drawDetections]: box, label and fill of one detection *)

(** The object literal [payload] of [sendFrameToServer], lines 110-116.
    [image_data] is the data URL of the canvas, identified with the
    canvas content it encodes. *)
Module Payload.
Record t := {
  frame_id : string;
  capture_ts : Z;
  image_data : list paint;
  model_name : string;
  resolution : list Z
}.
End Payload.

(** The [fetch] call of lines 118-124. *)
Record Request := {
  url : string;
  method : string;
  content_type : string;
  body : Payload.t
}.

(** What [result.detections] is at run time.  The body is cast to
    [ServerResponse], never validated, so the field may be anything
    JSON can hold. *)
Inductive detections_value :=
| Falsy                                   (* absent, null, false, 0, the empty string *)
| Elements (ds : list (option Detection)) (* an array; [None] is a null element *)
| NotAnArray.                             (* a truthy value that is not an array *)

(** [interface ServerResponse] as the component reads it: the three
    stamps after conversion to a number, and the detections.
    ([frame_id] is never read.) *)
Module Response.
Record t := {
  capture_ts : Js.number;
  recv_ts : Js.number;
  inference_ts : Js.number;
  detections : detections_value
}.
End Response.

(** What [response.json()] resolves to. *)
Inductive json :=
| JsonNull
| JsonValue (result : Response.t).

(** How a request ends. *)
Inductive response :=
| NetworkError                              (* [fetch] rejects *)
| Http (status : Z) (parsed : option json). (* [None]: the body is not JSON *)

(** [response.ok] *)
Definition ok (status : Z) : bool := (200 <=? status) && (status <=? 299).

(** Where an activation of [runLiveDetection] is suspended. *)
Inductive suspended :=
| AwaitFetch (startTime : Z)  (* line 208, inside [sendFrameToServer] *)
| AwaitFrame.                 (* line 210, [requestAnimationFrame] *)

(** Refs, state hooks, the canvas on show, and the browser's side:
    suspended activations (keyed by the number of the request they last
    issued), the requests issued so far, the console, the order in which
    results were drawn, and the activations ended by an uncaught
    exception.  [canvasId] numbers the canvas elements the component has
    rendered, [canvas] is the content of the one [videoCanvasRef] holds,
    and [contexts] gives, for each request, the canvas of the context
    its activation obtained from [capture]. *)
Record state := {
  liveDetection : bool;
  frameCounter : Z;
  SSR : bool;
  inferenceTime : Js.number;
  totalTime : Js.number;
  networkLatency : Js.number;
  serverLatency : Js.number;
  modelResolution : list Z;
  canvas : list paint;
  activations : gmap nat suspended;
  sent : list Request;
  console : list Js.error;
  drawn : list nat;
  uncaught : list (nat * Js.error);
  canvasId : nat;
  contexts : gmap nat nat
}.

Definition set_liveDetection (b : bool) (s : state) : state :=
  {| liveDetection := b; frameCounter := frameCounter s; SSR := SSR s;
     inferenceTime := inferenceTime s; totalTime := totalTime s;
     networkLatency := networkLatency s; serverLatency := serverLatency s;
     modelResolution := modelResolution s; canvas := canvas s;
     activations := activations s; sent := sent s; console := console s;
     drawn := drawn s; uncaught := uncaught s;
     canvasId := canvasId s; contexts := contexts s |}.

Definition setSSR (b : bool) (s : state) : state :=
  {| liveDetection := liveDetection s; frameCounter := frameCounter s; SSR := b;
     inferenceTime := inferenceTime s; totalTime := totalTime s;
     networkLatency := networkLatency s; serverLatency := serverLatency s;
     modelResolution := modelResolution s; canvas := canvas s;
     activations := activations s; sent := sent s; console := console s;
     drawn := drawn s; uncaught := uncaught s;
     canvasId := canvasId s; contexts := contexts s |}.

Definition setInferenceTime (v : Js.number) (s : state) : state :=
  {| liveDetection := liveDetection s; frameCounter := frameCounter s; SSR := SSR s;
     inferenceTime := v; totalTime := totalTime s;
     networkLatency := networkLatency s; serverLatency := serverLatency s;
     modelResolution := modelResolution s; canvas := canvas s;
     activations := activations s; sent := sent s; console := console s;
     drawn := drawn s; uncaught := uncaught s;
     canvasId := canvasId s; contexts := contexts s |}.

Definition setTotalTime (v : Js.number) (s : state) : state :=
  {| liveDetection := liveDetection s; frameCounter := frameCounter s; SSR := SSR s;
     inferenceTime := inferenceTime s; totalTime := v;
     networkLatency := networkLatency s; serverLatency := serverLatency s;
     modelResolution := modelResolution s; canvas := canvas s;
     activations := activations s; sent := sent s; console := console s;
     drawn := drawn s; uncaught := uncaught s;
     canvasId := canvasId s; contexts := contexts s |}.

Definition setNetworkLatency (v : Js.number) (s : state) : state :=
  {| liveDetection := liveDetection s; frameCounter := frameCounter s; SSR := SSR s;
     inferenceTime := inferenceTime s; totalTime := totalTime s;
     networkLatency := v; serverLatency := serverLatency s;
     modelResolution := modelResolution s; canvas := canvas s;
     activations := activations s; sent := sent s; console := console s;
     drawn := drawn s; uncaught := uncaught s;
     canvasId := canvasId s; contexts := contexts s |}.

Definition setServerLatency (v : Js.number) (s : state) : state :=
  {| liveDetection := liveDetection s; frameCounter := frameCounter s; SSR := SSR s;
     inferenceTime := inferenceTime s; totalTime := totalTime s;
     networkLatency := networkLatency s; serverLatency := v;
     modelResolution := modelResolution s; canvas := canvas s;
     activations := activations s; sent := sent s; console := console s;
     drawn := drawn s; uncaught := uncaught s;
     canvasId := canvasId s; contexts := contexts s |}.

Definition set_canvas (c : list paint) (s : state) : state :=
  {| liveDetection := liveDetection s; frameCounter := frameCounter s; SSR := SSR s;
     inferenceTime := inferenceTime s; totalTime := totalTime s;
     networkLatency := networkLatency s; serverLatency := serverLatency s;
     modelResolution := modelResolution s; canvas := c;
     activations := activations s; sent := sent s; console := console s;
     drawn := drawn s; uncaught := uncaught s;
     canvasId := canvasId s; contexts := contexts s |}.

Definition set_activations (a : gmap nat suspended) (s : state) : state :=
  {| liveDetection := liveDetection s; frameCounter := frameCounter s; SSR := SSR s;
     inferenceTime := inferenceTime s; totalTime := totalTime s;
     networkLatency := networkLatency s; serverLatency := serverLatency s;
     modelResolution := modelResolution s; canvas := canvas s;
     activations := a; sent := sent s; console := console s;
     drawn := drawn s; uncaught := uncaught s;
     canvasId := canvasId s; contexts := contexts s |}.

(** [fetch(...)] with the counter already advanced. *)
Definition issue (counter : Z) (r : Request) (s : state) : state :=
  {| liveDetection := liveDetection s; frameCounter := counter; SSR := SSR s;
     inferenceTime := inferenceTime s; totalTime := totalTime s;
     networkLatency := networkLatency s; serverLatency := serverLatency s;
     modelResolution := modelResolution s; canvas := canvas s;
     activations := activations s; sent := sent s ++ [r]; console := console s;
     drawn := drawn s; uncaught := uncaught s;
     canvasId := canvasId s; contexts := contexts s |}.

(** [console.error(..., error)] *)
Definition console_error (e : Js.error) (s : state) : state :=
  {| liveDetection := liveDetection s; frameCounter := frameCounter s; SSR := SSR s;
     inferenceTime := inferenceTime s; totalTime := totalTime s;
     networkLatency := networkLatency s; serverLatency := serverLatency s;
     modelResolution := modelResolution s; canvas := canvas s;
     activations := activations s; sent := sent s; console := console s ++ [e];
     drawn := drawn s; uncaught := uncaught s;
     canvasId := canvasId s; contexts := contexts s |}.

Definition note_drawn (rid : nat) (s : state) : state :=
  {| liveDetection := liveDetection s; frameCounter := frameCounter s; SSR := SSR s;
     inferenceTime := inferenceTime s; totalTime := totalTime s;
     networkLatency := networkLatency s; serverLatency := serverLatency s;
     modelResolution := modelResolution s; canvas := canvas s;
     activations := activations s; sent := sent s; console := console s;
     drawn := drawn s ++ [rid]; uncaught := uncaught s;
     canvasId := canvasId s; contexts := contexts s |}.

Definition note_uncaught (rid : nat) (e : Js.error) (s : state) : state :=
  {| liveDetection := liveDetection s; frameCounter := frameCounter s; SSR := SSR s;
     inferenceTime := inferenceTime s; totalTime := totalTime s;
     networkLatency := networkLatency s; serverLatency := serverLatency s;
     modelResolution := modelResolution s; canvas := canvas s;
     activations := activations s; sent := sent s; console := console s;
     drawn := drawn s; uncaught := uncaught s ++ [(rid, e)];
     canvasId := canvasId s; contexts := contexts s |}.

(** [const ctx = capture()] in the activation that goes on to issue
    request [rid]: the context it holds is that of the canvas now on show. *)
Definition set_context (rid : nat) (s : state) : state :=
  {| liveDetection := liveDetection s; frameCounter := frameCounter s; SSR := SSR s;
     inferenceTime := inferenceTime s; totalTime := totalTime s;
     networkLatency := networkLatency s; serverLatency := serverLatency s;
     modelResolution := modelResolution s; canvas := canvas s;
     activations := activations s; sent := sent s; console := console s;
     drawn := drawn s; uncaught := uncaught s;
     canvasId := canvasId s; contexts := <[rid := canvasId s]> (contexts s) |}.

(** The render after [SSR] has changed, lines 239-241: the tree that
    holds the canvas is taken down, or put up with a canvas of its own,
    blank.  Contexts obtained before keep the canvas they came from. *)
Definition remount (s : state) : state :=
  {| liveDetection := liveDetection s; frameCounter := frameCounter s; SSR := SSR s;
     inferenceTime := inferenceTime s; totalTime := totalTime s;
     networkLatency := networkLatency s; serverLatency := serverLatency s;
     modelResolution := modelResolution s; canvas := [];
     activations := activations s; sent := sent s; console := console s;
     drawn := drawn s; uncaught := uncaught s;
     canvasId := S (canvasId s); contexts := contexts s |}.

(** Whether the context held for request [rid] is that of the canvas on show. *)
Definition on_show (rid : nat) (s : state) : bool :=
  bool_decide (contexts s !! rid = Some (canvasId s)).

(** The component once mounted: every hook at its initial value, then
    the effect of lines 56-66 run once ([setSSR(document.hidden)]). *)
Definition mount (props : Props) (hidden : bool) : state :=
  {| liveDetection := false; frameCounter := 0; SSR := hidden;
     inferenceTime := Some 0; totalTime := Some 0;
     networkLatency := Some 0; serverLatency := Some 0;
     modelResolution := currentModelResolution props; canvas := [];
     activations := ∅; sent := []; console := [];
     drawn := []; uncaught := [];
     canvasId := 0; contexts := ∅ |}.

(** What one loop iteration reads from the world before it suspends:
    [Date.now()] of line 205, the video frame that [capture] draws, and
    [Date.now()] of line 108.  A reading of the clock is a whole number
    of milliseconds of magnitude at most 8.64e15, below [2^53], so the
    difference of two readings is exact. *)
Record tick := { startTime : Z; image : string; captureTs : Z }.

(** [canvas.toDataURL('image/jpeg', 0.8)]: the encoded image, identified
    with the canvas content it encodes. *)
Definition toDataURL (c : list paint) : list paint := c.

(** [capture], lines 79-101: the video frame is drawn over the whole
    canvas, covering what was there. *)
Definition capture (image : string) (s : state) : state :=
  set_canvas [DrawImage image] s.

(** [sendFrameToServer] up to [await fetch], lines 105-124. *)
Definition sendFrameToServer_send (props : Props) (captureTs : Z) (s : state) : state :=
  let imageData := toDataURL (canvas s) in
  let frameId := "frame_" +:+ pretty (frameCounter s) in
  let counter := Js.incr (frameCounter s) in
  let payload :=
    {| Payload.frame_id := frameId;
       Payload.capture_ts := captureTs;
       Payload.image_data := imageData;
       Payload.model_name := modelName props;
       Payload.resolution := modelResolution s |} in
  issue counter
    {| url := serverUrl props +:+ "/api/detect";
       method := "POST";
       content_type := "application/json";
       body := payload |} s.

(** The body of the [try] from line 126 on, once the request has ended
    with [r]; [now] is [Date.now()] of line 133. *)
Definition sendFrameToServer_try (r : response) (now : Z) (s : state)
  : Js.completion Response.t * state :=
  match r with
  | NetworkError => (Js.Throw (Js.TypeError "Failed to fetch"), s)
  | Http status parsed =>
      if negb (ok status) then
        (Js.Throw (Js.Error ("Server error: " +:+ pretty status)), s)
      else
        match parsed with
        | None => (Js.Throw (Js.SyntaxError "Unexpected token"), s)
        | Some JsonNull =>
            (Js.Throw (Js.TypeError "Cannot read properties of null"), s)
        | Some (JsonValue result) =>
            let networkLat := Js.sub (Response.recv_ts result) (Response.capture_ts result) in
            let serverLat := Js.sub (Response.inference_ts result) (Response.recv_ts result) in
            let totalLat := Js.sub (Some now) (Response.capture_ts result) in
            (Js.Normal result,
             setInferenceTime serverLat
               (setServerLatency serverLat
                  (setNetworkLatency networkLat s)))
        end
  end.

(** [sendFrameToServer] from the point where the request ends: the
    [try] and its [catch], lines 126-146. *)
Definition sendFrameToServer_resume (r : response) (now : Z) (s : state)
  : Js.completion (option Response.t) * state :=
  match sendFrameToServer_try r now s with
  | (Js.Normal result, s1) => (Js.Normal (Some result), s1)
  | (Js.Throw e, s1) => (Js.Normal None, console_error e s1)
  end.

(** [detections.forEach(...)], lines 159-188: destructuring a null
    element throws. *)
Fixpoint forEach (ds : list (option Detection)) (c : list paint)
  : Js.completion unit * list paint :=
  match ds with
  | [] => (Js.Normal tt, c)
  | None :: _ => (Js.Throw (Js.TypeError "Cannot destructure null"), c)
  | Some d :: rest => forEach rest (c ++ [DrawBox d])
  end.

(** [drawDetections], lines 155-189. *)
Definition drawDetections (detections : detections_value) (s : state)
  : Js.completion unit * state :=
  let cleared := set_canvas [] s in
  match detections with
  | Elements ds =>
      let '(c, painted) := forEach ds [] in (c, set_canvas painted cleared)
  | Falsy | NotAnArray =>
      (Js.Throw (Js.TypeError "detections.forEach is not a function"), cleared)
  end.

(** [runServerInference], lines 191-196, from the point where the
    request [rid] ends.  [drawDetections] draws through the context the
    activation holds: on the canvas on show if that is still its
    canvas, else on a canvas that is no longer in the page. *)
Definition runServerInference_resume (rid : nat) (r : response) (now : Z) (s : state)
  : Js.completion unit * state :=
  match sendFrameToServer_resume r now s with
  | (Js.Throw e, s1) => (Js.Throw e, s1)
  | (Js.Normal None, s1) => (Js.Normal tt, s1)
  | (Js.Normal (Some result), s1) =>
      match Response.detections result with
      | Falsy => (Js.Normal tt, s1)
      | detections =>
          let '(c, s2) := drawDetections detections (note_drawn rid s1) in
          (c, if on_show rid s then s2 else set_canvas (canvas s) s2)
      end
  end.

(** One turn of the [while] of [runLiveDetection], lines 204-208, up to
    the [await] inside [sendFrameToServer]: the activation is left
    suspended on the request it has just issued.  ([capture] always
    returns a context, so the [return] of line 207 is never taken; the
    flag is up only while the canvas is rendered.) *)
Definition loop_head (props : Props) (t : tick) (s : state) : state :=
  if liveDetection s then
    let rid := length (sent s) in
    let s1 := set_context rid (capture (image t) s) in
    let s2 := sendFrameToServer_send props (captureTs t) s1 in
    set_activations (<[rid := AwaitFetch (startTime t)]> (activations s2)) s2
  else s.

(** [runLiveDetection], lines 198-214, from its call to its first [await]. *)
Definition runLiveDetection (props : Props) (t : tick) (s : state) : state :=
  if liveDetection s then set_liveDetection false s
  else loop_head props t (set_liveDetection true s).

(** The [onClick] of the "Live Detection" button, lines 293-299. *)
Definition onClickLiveDetection (props : Props) (t : tick) (s : state) : state :=
  if liveDetection s then set_liveDetection false s
  else runLiveDetection props t s.

(** [reset], lines 233-237, for a canvas that has the size recorded in
    [originalSize] (both are set when the video metadata loads, lines
    72-76 and 262-268): the rectangle cleared is then the whole canvas. *)
Definition reset (s : state) : state :=
  set_liveDetection false (set_canvas [] s).

(** [handleVisibilityChange], lines 57-63, and the render it causes
    when [SSR] changes, lines 239-241. *)
Definition handleVisibilityChange (hidden : bool) (s : state) : state :=
  let s1 := setSSR hidden (if hidden then set_liveDetection false s else s) in
  if Bool.eqb (SSR s) hidden then s1 else remount s1.

(** What the browser can deliver to the component. *)
Inductive event :=
| ClickLiveDetection (t : tick)
| ClickReset
| VisibilityChange (hidden : bool)
| FetchSettled (rid : nat) (r : response) (now : Z) (done : Z)
| AnimationFrame (rid : nat) (t : tick).

(** One event, run to the next suspension.  The buttons exist only while
    [SSR] is false (line 239).  [FetchSettled rid r now done] resumes the
    activation waiting for request [rid]: lines 126-146, 193-195 and 209
    run in one go ([done] is [Date.now()] of line 209), and the
    activation either suspends on [requestAnimationFrame] or ends with
    the exception that [runServerInference] let through.
    [AnimationFrame rid t] resumes the activation at the loop test. *)
Definition step (props : Props) (e : event) (s : state) : state :=
  match e with
  | ClickLiveDetection t => if SSR s then s else onClickLiveDetection props t s
  | ClickReset => if SSR s then s else reset s
  | VisibilityChange hidden => handleVisibilityChange hidden s
  | FetchSettled rid r now done =>
      match activations s !! rid with
      | Some (AwaitFetch startTime) =>
          match runServerInference_resume rid r now s with
          | (Js.Normal _, s1) =>
              let s2 := setTotalTime (Some (done - startTime)) s1 in
              set_activations (<[rid := AwaitFrame]> (activations s2)) s2
          | (Js.Throw e, s1) =>
              note_uncaught rid e (set_activations (delete rid (activations s1)) s1)
          end
      | _ => s
      end
  | AnimationFrame rid t =>
      match activations s !! rid with
      | Some AwaitFrame =>
          loop_head props t (set_activations (delete rid (activations s)) s)
      | _ => s
      end
  end.

(** A sequence of events, oldest first. *)
Definition run (props : Props) (es : list event) (s : state) : state :=
  fold_left (fun s e => step props e s) es s.

(** The requests awaiting their response. *)
Definition in_flight (s : state) : list nat :=
  omap (fun kv : nat * suspended =>
          match kv.2 with AwaitFetch _ => Some kv.1 | AwaitFrame => None end)
       (map_to_list (activations s)).

(** The detections on show. *)
Definition overlay (s : state) : list Detection :=
  omap (fun p => match p with DrawBox d => Some d | DrawImage _ => None end) (canvas s).

(** The ways a request fails inside [sendFrameToServer]: [fetch]
    rejects, the status is not OK, the body is not JSON, or it is the
    JSON [null]. *)
Definition request_failed (r : response) : bool :=
  match r with
  | NetworkError => true
  | Http status parsed =>
      negb (ok status) ||
      match parsed with
      | None | Some JsonNull => true
      | Some (JsonValue _) => false
      end
  end.

(** A latency sample that left no trace in the recorded latencies. *)
Definition sample_rejected (before after : state) : Prop :=
  networkLatency after = networkLatency before
  ∧ serverLatency after = serverLatency before
  ∧ inferenceTime after = inferenceTime before.

(** [t] is what some loop iteration of the run [es] read from the world. *)
Definition tick_in (t : tick) (es : list event) : Prop :=
  ClickLiveDetection t ∈ es ∨ ∃ rid, AnimationFrame rid t ∈ es.

(** A press of the "Live Detection" button. *)
Definition is_click (e : event) : bool :=
  match e with
  | ClickLiveDetection _ => true
  | _ => false
  end.

(** The run holds no press of the "Live Detection" button. *)
Definition no_click (es : list event) : bool :=
  forallb (fun e => negb (is_click e)) es.

(** [after] differs from [before] at most in the latencies shown, the
    canvas, the console and the record of what was drawn. *)
Definition same_control (before after : state) : Prop :=
  liveDetection after = liveDetection before
  ∧ frameCounter after = frameCounter before
  ∧ SSR after = SSR before
  ∧ modelResolution after = modelResolution before
  ∧ activations after = activations before
  ∧ sent after = sent before
  ∧ uncaught after = uncaught before.

(** The request built for a frame captured at tick [t] when the counter
    reads [n]. *)
Definition request_numbered (props : Props) (n : Z) (t : tick) : Request :=
  {| url := serverUrl props +:+ "/api/detect";
     method := "POST";
     content_type := "application/json";
     body := {| Payload.frame_id := "frame_" +:+ pretty n;
                Payload.capture_ts := captureTs t;
                Payload.image_data := [DrawImage (image t)];
                Payload.model_name := modelName props;
                Payload.resolution := currentModelResolution props |} |}.

(** The request the component builds for the [i]-th frame of a session,
    captured at tick [t]. *)
Definition request_for (props : Props) (i : nat) (t : tick) : Request :=
  request_numbered props (Z.of_nat i) t.

(** What holds of a session after the run [es]: the counter has
    followed the requests issued (up to where a double stops counting),
    the resolution is the one the parent gave, and every request is the
    one built for its number at some tick of the run. *)
Definition session_inv (props : Props) (es : list event) (s : state) : Prop :=
  frameCounter s = Z.min (Z.of_nat (length (sent s))) (2 ^ 53)
  ∧ modelResolution s = currentModelResolution props
  ∧ ∀ (i : nat) (req : Request), sent s !! i = Some req →
      ∃ t, tick_in t es ∧ req = request_numbered props (Z.min (Z.of_nat i) (2 ^ 53)) t.

(** The stamps that a parsed reply carries are each [NaN] or a whole
    number of magnitude at most [2^53]. *)
Definition safe_reply (r : response) : Prop :=
  match r with
  | Http _ (Some (JsonValue result)) =>
      Js.safe (Response.capture_ts result)
      ∧ Js.safe (Response.recv_ts result)
      ∧ Js.safe (Response.inference_ts result)
  | _ => True
  end.

(** A well-formed reply, status 200. *)
Definition reply (capture recv inference : Z) (ds : list Detection) : response :=
  Http 200 (Some (JsonValue
    {| Response.capture_ts := Some capture;
       Response.recv_ts := Some recv;
       Response.inference_ts := Some inference;
       Response.detections := Elements (Some <$> ds) |})).

(** A reply whose [detections] field is an object, not an array:
    [{"capture_ts":1000,"recv_ts":1050,"inference_ts":1090,"detections":{}}]. *)
Definition reply_without_array : response :=
  Http 200 (Some (JsonValue
    {| Response.capture_ts := Some 1000;
       Response.recv_ts := Some 1050;
       Response.inference_ts := Some 1090;
       Response.detections := NotAnArray |})).

End Camera.

(* ===================================================================== *)
(** ** ServerInferenceCamera.tsx: the "Capture Photo" path                *)
(* ===================================================================== *)

Module Photo.
Import Camera.

Definition is_image (p : paint) : bool :=
  match p with
  | DrawImage _ => true
  | DrawBox _ => false
  end.

(** [dst.drawImage(src.canvas, 0, 0, width, height)], both canvases of
    one size: what [src] holds is painted over [dst]; a video frame in
    [src] covers what [dst] held. *)
Definition drawCanvas (src dst : list paint) : list paint :=
  if existsb is_image src then src else dst ++ src.

(** [drawDetections], lines 155-189, on the canvas [c] of the context it
    is given. *)
Definition drawDetections_on (detections : detections_value) (c : list paint)
  : Js.completion unit * list paint :=
  let cleared : list paint := [] in
  match detections with
  | Elements ds => forEach ds cleared
  | Falsy | NotAnArray =>
      (Js.Throw (Js.TypeError "detections.forEach is not a function"), cleared)
  end.

(** [sendFrameToServer] up to [await fetch], lines 105-124, for a
    context whose canvas holds [c]. *)
Definition sendFrameToServer_send_from
    (props : Props) (captureTs : Z) (c : list paint) (s : state) : state :=
  let imageData := toDataURL c in
  let frameId := "frame_" +:+ pretty (frameCounter s) in
  let counter := Js.incr (frameCounter s) in
  let payload :=
    {| Payload.frame_id := frameId;
       Payload.capture_ts := captureTs;
       Payload.image_data := imageData;
       Payload.model_name := modelName props;
       Payload.resolution := modelResolution s |} in
  issue counter
    {| url := serverUrl props +:+ "/api/detect";
       method := "POST";
       content_type := "application/json";
       body := payload |} s.

(** [runServerInference], lines 191-196, from the point where the
    request [rid] ends, for a context whose canvas holds [c]. *)
Definition runServerInference_on
    (rid : nat) (r : response) (now : Z) (c : list paint) (s : state)
  : Js.completion unit * list paint * state :=
  match sendFrameToServer_resume r now s with
  | (Js.Throw e, s1) => (Js.Throw e, c, s1)
  | (Js.Normal None, s1) => (Js.Normal tt, c, s1)
  | (Js.Normal (Some result), s1) =>
      match Response.detections result with
      | Falsy => (Js.Normal tt, c, s1)
      | detections =>
          let '(completion, painted) := drawDetections_on detections c in
          (completion, painted, note_drawn rid s1)
      end
  end.

(** A press of "Capture Photo" waiting for its response: [startTime] of
    line 284 and the canvas of [boxCtx], lines 222-227. *)
Record pending := { started : Z; box : list paint }.

(** The [onClick] of "Capture Photo" (lines 283-287) into [processImage]
    (lines 216-229), up to the [await] inside [sendFrameToServer]:
    [reset], [capture], the copy of the canvas into [boxCtx], and the
    request sent from [boxCtx]. *)
Definition processImage_begin (props : Props) (t : tick) (s : state) : pending * state :=
  let s1 := reset s in
  let s2 := set_context (length (sent s)) (capture (image t) s1) in
  let boxCtx := drawCanvas (canvas s2) [] in
  ({| started := startTime t; box := boxCtx |},
   sendFrameToServer_send_from props (captureTs t) boxCtx s2).

(** [processImage] from the point where its request [rid] ends, lines
    229-230, and line 286 of the [onClick]; [done] is [Date.now()] of
    line 286.  When [runServerInference] throws, neither line runs.
    Line 230 draws through [ctx], the context obtained at the press. *)
Definition processImage_resume
    (p : pending) (rid : nat) (r : response) (now done : Z) (s : state)
  : Js.completion unit * state :=
  match runServerInference_on rid r now (box p) s with
  | (Js.Normal _, boxCtx, s1) =>
      (Js.Normal tt,
       setTotalTime (Some (done - started p))
         (if on_show rid s then set_canvas (drawCanvas boxCtx (canvas s1)) s1 else s1))
  | (Js.Throw e, _, s1) => (Js.Throw e, s1)
  end.

(** The component with its pending photos, keyed like the activations
    by the number of their request, and the presses of "Capture Photo"
    ended by an uncaught exception. *)
Record ui := {
  cam : state;
  photos : gmap nat pending;
  photo_uncaught : list (nat * Js.error)
}.

Definition ui_mount (props : Props) (hidden : bool) : ui :=
  {| cam := mount props hidden; photos := ∅; photo_uncaught := [] |}.

(** What the browser can deliver, the photo path included. *)
Inductive ui_event :=
| Live (e : event)
| ClickCapturePhoto (t : tick)
| PhotoSettled (rid : nat) (r : response) (now : Z) (done : Z).

(** One event, run to the next suspension. *)
Definition ui_step (props : Props) (e : ui_event) (u : ui) : ui :=
  match e with
  | Live e =>
      {| cam := step props e (cam u);
         photos := photos u; photo_uncaught := photo_uncaught u |}
  | ClickCapturePhoto t =>
      if SSR (cam u) then u
      else
        let rid := length (sent (cam u)) in
        let '(p, s) := processImage_begin props t (cam u) in
        {| cam := s; photos := <[rid := p]> (photos u);
           photo_uncaught := photo_uncaught u |}
  | PhotoSettled rid r now done =>
      match photos u !! rid with
      | Some p =>
          match processImage_resume p rid r now done (cam u) with
          | (Js.Normal _, s) =>
              {| cam := s; photos := delete rid (photos u);
                 photo_uncaught := photo_uncaught u |}
          | (Js.Throw e, s) =>
              {| cam := s; photos := delete rid (photos u);
                 photo_uncaught := photo_uncaught u ++ [(rid, e)] |}
          end
      | None => u
      end
  end.

(** A sequence of events, oldest first. *)
Definition ui_run (props : Props) (es : list ui_event) (u : ui) : ui :=
  fold_left (fun u e => ui_step props e u) es u.

(** A press of "Live Detection" or of "Capture Photo". *)
Definition is_press (e : ui_event) : bool :=
  match e with
  | Live e => is_click e
  | ClickCapturePhoto _ => true
  | PhotoSettled _ _ _ _ => false
  end.

(** The run holds no press of either button. *)
Definition no_press (es : list ui_event) : bool :=
  forallb (fun e => negb (is_press e)) es.

End Photo.

(** What holds of the requests of a session: the counter has followed
    them, up to where a double stops counting, and each carries the
    frame id of its number. *)
Definition ids_inv (s : Camera.state) : Prop :=
  Camera.frameCounter s = Z.min (Z.of_nat (length (Camera.sent s))) (2 ^ 53)
  ∧ ∀ (i : nat) (req : Camera.Request), Camera.sent s !! i = Some req →
      Camera.Payload.frame_id (Camera.body req)
      = "frame_" +:+ pretty (Z.min (Z.of_nat i) (2 ^ 53)).

(** From [s] to [s'] at most one request is sent, numbered by the
    counter. *)
Definition sends_at_most_one (s s' : Camera.state) : Prop :=
  (Camera.sent s' = Camera.sent s ∧ Camera.frameCounter s' = Camera.frameCounter s)
  ∨ (∃ req, Camera.sent s' = Camera.sent s ++ [req]
            ∧ Camera.Payload.frame_id (Camera.body req)
              = "frame_" +:+ pretty (Camera.frameCounter s)
            ∧ Camera.frameCounter s' = Js.incr (Camera.frameCounter s)).

(** A null among the detections. *)
Definition is_null (d : option Camera.Detection) : bool :=
  match d with
  | None => true
  | Some _ => false
  end.

(** The replies that end an activation of the live loop: status OK,
    a parsed body, and detections that are truthy but not an array of
    non-null elements. *)
Definition ends_loop (r : Camera.response) : bool :=
  match r with
  | Camera.NetworkError => false
  | Camera.Http status parsed =>
      Camera.ok status &&
      match parsed with
      | Some (Camera.JsonValue result) =>
          match Camera.Response.detections result with
          | Camera.Falsy => false
          | Camera.Elements ds => existsb is_null ds
          | Camera.NotAnArray => true
          end
      | _ => false
      end
  end.


(* ===================================================================== *)
(** ** ServerInferenceCamera.tsx: the colours of a box                    *)
(* ===================================================================== *)

Module Style.

Fixpoint starts_with (prefix s : string) : bool :=
  match prefix, s with
  | EmptyString, _ => true
  | String a p, String b rest => if Ascii.eqb a b then starts_with p rest else false
  | String _ _, EmptyString => false
  end.

Fixpoint drop_chars (n : nat) (s : string) : string :=
  match n, s with
  | O, _ => s
  | S n, String _ rest => drop_chars n rest
  | S _, EmptyString => EmptyString
  end.

(** [s.replace(pattern, replacement)] with a string for pattern: the
    first occurrence only.  (The replacements of the component hold no
    [$], so they are taken literally.) *)
Fixpoint replace (pattern replacement s : string) : string :=
  if starts_with pattern s then replacement +:+ drop_chars (String.length pattern) s
  else match s with
       | EmptyString => EmptyString
       | String c rest => String c (replace pattern replacement rest)
       end.

(** The template of [conf2color], line 152, over the two channel values
    as they print. *)
Definition rgb (r g : string) : string := "rgb(" +:+ r +:+ "," +:+ g +:+ ",0)".

(** The fill style of line 186. *)
Definition fillStyle (color : string) : string :=
  replace "rgb" "rgba" (replace ")" ", 0.2)" color).

(** No closing parenthesis in [s]. *)
Fixpoint no_paren (s : string) : bool :=
  match s with
  | EmptyString => true
  | String c rest => negb (Ascii.eqb ")"%char c) && no_paren rest
  end.

End Style.

(* ===================================================================== *)
(** ** bench/run_bench.sh: the arguments and the statistics               *)
(* ===================================================================== *)

Module Bench.

(** Shell arithmetic is on signed 64-bit integers and wraps. *)
Definition wrap (z : Z) : Z := (z + 2 ^ 63) mod 2 ^ 64 - 2 ^ 63.

Definition add (a b : Z) : Z := wrap (a + b).
Definition mul (a b : Z) : Z := wrap (a * b).

(** [a / b] and [a % b] truncate towards zero; dividing by zero is an
    error, which ends the script. *)
Definition div (a b : Z) : option Z :=
  if b =? 0 then None else Some (wrap (Z.quot a b)).
Definition rem (a b : Z) : option Z :=
  if b =? 0 then None else Some (Z.rem a b).

(** The variables of lines 9-12. *)
Record options := {
  DURATION : string;
  MODE : string;
  OUTPUT_FILE : string;
  HELP : bool
}.

Definition defaults : options :=
  {| DURATION := "30"; MODE := "wasm"; OUTPUT_FILE := "metrics.json"; HELP := false |}.

(** The glob [prefix*] of a [case] pattern. *)
Fixpoint starts_with (prefix s : string) : bool :=
  match prefix, s with
  | EmptyString, _ => true
  | String a p, String b rest => if Ascii.eqb a b then starts_with p rest else false
  | String _ _, EmptyString => false
  end.

(** What follows the first [=], if there is one. *)
Fixpoint after_equals (s : string) : option string :=
  match s with
  | EmptyString => None
  | String c rest => if Ascii.eqb c "="%char then Some rest else after_equals rest
  end.

(** [${arg#*=}]: the shortest prefix that ends in [=] is removed; an
    argument without [=] is left as it is. *)
Definition strip_to_equals (arg : string) : string :=
  match after_equals arg with
  | Some value => value
  | None => arg
  end.

(** One turn of the [for] of lines 15-38, with what it echoes. *)
Definition parse_arg (arg : string) (st : options * list string) : options * list string :=
  let '(o, out) := st in
  if starts_with "--duration=" arg then
    ({| DURATION := strip_to_equals arg; MODE := MODE o;
        OUTPUT_FILE := OUTPUT_FILE o; HELP := HELP o |}, out)
  else if starts_with "--mode=" arg then
    ({| DURATION := DURATION o; MODE := strip_to_equals arg;
        OUTPUT_FILE := OUTPUT_FILE o; HELP := HELP o |}, out)
  else if starts_with "--output=" arg then
    ({| DURATION := DURATION o; MODE := MODE o;
        OUTPUT_FILE := strip_to_equals arg; HELP := HELP o |}, out)
  else if String.eqb arg "--help" || String.eqb arg "-h" then
    ({| DURATION := DURATION o; MODE := MODE o;
        OUTPUT_FILE := OUTPUT_FILE o; HELP := true |}, out)
  else
    ({| DURATION := DURATION o; MODE := MODE o;
        OUTPUT_FILE := OUTPUT_FILE o; HELP := true |},
     out ++ ["Unknown argument: " +:+ arg]).

(** Lines 15-38. *)
Definition parse (args : list string) : options * list string :=
  fold_left (fun st arg => parse_arg arg st) args (defaults, []).

(** One of the three assignments the script knows. *)
Definition is_assignment (arg : string) : bool :=
  starts_with "--duration=" arg || starts_with "--mode=" arg || starts_with "--output=" arg.

Definition is_digit (c : ascii) : bool :=
  (48 <=? nat_of_ascii c)%nat && (nat_of_ascii c <=? 57)%nat.

Fixpoint all_digits (s : string) : bool :=
  match s with
  | EmptyString => true
  | String c rest => is_digit c && all_digits rest
  end.

(** The decimal value of a string of digits. *)
Fixpoint decimal (acc : N) (s : string) : N :=
  match s with
  | EmptyString => acc
  | String c rest => decimal (acc * 10 + N.of_nat (nat_of_ascii c - 48)) rest
  end.

(** The test of line 60 passes: [$DURATION] matches [^[0-9]+$] and is
    not less than 1.  (Beyond 64 bits [-lt] fails with an error, which
    the [if] reads as "not less": the test passes there too.) *)
Definition valid_duration (d : string) : bool :=
  negb (String.eqb d "") && all_digits d && (1 <=? decimal 0 d)%N.

(** The test of line 65 passes. *)
Definition valid_mode (m : string) : bool :=
  String.eqb m "wasm" || String.eqb m "server".

(** How the script leaves lines 14-68. *)
Inductive outcome :=
| ShowHelp                   (* lines 41-57: the help text, [exit 0] *)
| Fail (message : string)    (* lines 60-68: [exit 1] *)
| Proceed (o : options).     (* on to line 70 *)

Definition arguments (args : list string) : outcome :=
  let o := (parse args).1 in
  if HELP o then ShowHelp
  else if negb (valid_duration (DURATION o)) then
    Fail "Error: Duration must be a positive integer"
  else if negb (valid_mode (MODE o)) then
    Fail ("Error: Invalid mode '" +:+ MODE o +:+ "'. Must be 'wasm' or 'server'.")
  else Proceed o.

(** What one turn of the loop of lines 135-163 draws: three reads of
    [$RANDOM], in the order of the script. *)
Record draws := { random1 : Z; random2 : Z; random3 : Z }.

(** [$RANDOM] is between 0 and 32767. *)
Definition in_random_range (d : draws) : Prop :=
  0 <= random1 d <= 32767 ∧ 0 <= random2 d <= 32767 ∧ 0 <= random3 d <= 32767.

(** The variables the loop updates, lines 125-130. *)
Record metrics := {
  FRAME_COUNT : Z;
  TOTAL_E2E_LATENCY : Z;
  TOTAL_SERVER_LATENCY : Z;
  TOTAL_NETWORK_LATENCY : Z;
  LATENCIES : list Z;
  SERVER_LATENCIES : list Z
}.

Definition no_metrics : metrics :=
  {| FRAME_COUNT := 0; TOTAL_E2E_LATENCY := 0; TOTAL_SERVER_LATENCY := 0;
     TOTAL_NETWORK_LATENCY := 0; LATENCIES := []; SERVER_LATENCIES := [] |}.

(** Lines 140-148. *)
Definition E2E_LATENCY (mode : string) (d : draws) : Z :=
  if String.eqb mode "server" then add 50 (Z.rem (random1 d) 100)
  else add 30 (Z.rem (random1 d) 60).

Definition SERVER_LATENCY (mode : string) (d : draws) : Z :=
  if String.eqb mode "server" then add 20 (Z.rem (random2 d) 40)
  else add 5 (Z.rem (random2 d) 15).

Definition NETWORK_LATENCY (d : draws) : Z := add 10 (Z.rem (random3 d) 20).

(** One turn of the loop, lines 137-155. *)
Definition frame (mode : string) (m : metrics) (d : draws) : metrics :=
  {| FRAME_COUNT := add (FRAME_COUNT m) 1;
     TOTAL_E2E_LATENCY := add (TOTAL_E2E_LATENCY m) (E2E_LATENCY mode d);
     TOTAL_SERVER_LATENCY := add (TOTAL_SERVER_LATENCY m) (SERVER_LATENCY mode d);
     TOTAL_NETWORK_LATENCY := add (TOTAL_NETWORK_LATENCY m) (NETWORK_LATENCY d);
     LATENCIES := LATENCIES m ++ [E2E_LATENCY mode d];
     SERVER_LATENCIES := SERVER_LATENCIES m ++ [SERVER_LATENCY mode d] |}.

(** The loop, for as many turns as the clock allows. *)
Definition collect (mode : string) (ds : list draws) : metrics :=
  fold_left (frame mode) ds no_metrics.

(** [sort -n] on decimal integers, one to a line. *)
Definition sort_n (l : list Z) : list Z := merge_sort Z.le l.

(** [${SORTED_LATENCIES[$i]}]: empty beyond the array; a negative
    index counts back from the end. *)
Definition element (l : list Z) (i : Z) : option Z :=
  if i <? 0 then
    if Z.of_nat (length l) + i <? 0 then None
    else l !! Z.to_nat (Z.of_nat (length l) + i)
  else l !! Z.to_nat i.

(** What lines 171-185 compute. *)
Record statistics := {
  MEDIAN_LATENCY : option Z;
  P95_LATENCY : option Z;
  AVG_E2E_LATENCY : Z;
  AVG_SERVER_LATENCY : Z;
  AVG_NETWORK_LATENCY : Z
}.

(** Lines 171-185; [None] when a division by zero ends the script. *)
Definition calculate (m : metrics) : option statistics :=
  let SORTED_LATENCIES := sort_n (LATENCIES m) in
  let LATENCY_COUNT := Z.of_nat (length SORTED_LATENCIES) in
  match div LATENCY_COUNT 2, div (mul LATENCY_COUNT 95) 100 with
  | Some MEDIAN_INDEX, Some P95_INDEX =>
      match div (TOTAL_E2E_LATENCY m) (FRAME_COUNT m),
            div (TOTAL_SERVER_LATENCY m) (FRAME_COUNT m),
            div (TOTAL_NETWORK_LATENCY m) (FRAME_COUNT m) with
      | Some e2e, Some server, Some network =>
          Some {| MEDIAN_LATENCY := element SORTED_LATENCIES MEDIAN_INDEX;
                  P95_LATENCY := element SORTED_LATENCIES P95_INDEX;
                  AVG_E2E_LATENCY := e2e;
                  AVG_SERVER_LATENCY := server;
                  AVG_NETWORK_LATENCY := network |}
      | _, _, _ => None
      end
  | _, _ => None
  end.

(** The ranges of the simulated latencies. *)
Definition e2e_range (mode : string) : Z * Z :=
  if String.eqb mode "server" then (50, 149) else (30, 89).

Definition server_range (mode : string) : Z * Z :=
  if String.eqb mode "server" then (20, 59) else (5, 19).

Definition network_range : Z * Z := (10, 29).

Definition within (range : Z * Z) (z : Z) : Prop := range.1 <= z <= range.2.

(** The sum of a list of latencies. *)
Definition total (l : list Z) : Z := foldr Z.add 0 l.

(** An argument the script does not take for an assignment. *)
Definition not_assignment (arg : string) : bool := negb (is_assignment arg).

(** No argument of [args] matches the pattern [prefix*]. *)
Definition none_matches (prefix : string) (args : list string) : bool :=
  forallb (fun arg => negb (starts_with prefix arg)) args.

End Bench.

(* ===================================================================== *)
(** ** Sample inputs                                                      *)
(* ===================================================================== *)

(** An instance with the attribute in place: capacity 2, empty. *)
Definition queue_of_two : FrameQueue.FrameQueue string :=
  {| FrameQueue.queue := FrameQueue.Deque [] 2;
     FrameQueue.dropped_frames := 0;
     FrameQueue.max_size := Some 2%nat |}.

(** Capacity 5, the default, empty. *)
Definition queue_of_five : FrameQueue.FrameQueue string :=
  {| FrameQueue.queue := FrameQueue.Deque [] 5;
     FrameQueue.dropped_frames := 0;
     FrameQueue.max_size := Some 5%nat |}.

(** The default queue after f1, f2, f3 have been offered to it. *)
Definition queue_after_three : FrameQueue.FrameQueue string :=
  match FrameQueue.add_frames queue_of_five ["f1"; "f2"; "f3"] with
  | FrameQueue.Ok (_, self) => self
  | FrameQueue.Raise _ => queue_of_five
  end.

Definition props0 : Camera.Props :=
  {| Camera.modelName := "yolov10n";
     Camera.currentModelResolution := [640; 640];
     Camera.serverUrl := "http://localhost:5000" |}.

(** A frame captured at 1000, in a loop turn that began at 990. *)
Definition tick_1000 : Camera.tick :=
  {| Camera.startTime := 990; Camera.image := "frame at 1000"; Camera.captureTs := 1000 |}.

Definition tick_500 : Camera.tick :=
  {| Camera.startTime := 490; Camera.image := "frame at 500"; Camera.captureTs := 500 |}.

Definition tick_600 : Camera.tick :=
  {| Camera.startTime := 590; Camera.image := "frame at 600"; Camera.captureTs := 600 |}.

Definition tick_2000 : Camera.tick :=
  {| Camera.startTime := 1990; Camera.image := "frame at 2000"; Camera.captureTs := 2000 |}.

Definition cat : Camera.Detection :=
  {| Camera.label := "cat"; Camera.score := 9 # 10;
     Camera.xmin := 1 # 10; Camera.ymin := 1 # 10;
     Camera.xmax := 5 # 10; Camera.ymax := 5 # 10 |}.

Definition dog : Camera.Detection :=
  {| Camera.label := "dog"; Camera.score := 8 # 10;
     Camera.xmin := 4 # 10; Camera.ymin := 2 # 10;
     Camera.xmax := 9 # 10; Camera.ymax := 8 # 10 |}.

(** Live detection started once; the first request is pending. *)
Definition live_1000 : Camera.state :=
  Camera.run props0 [Camera.ClickLiveDetection tick_1000] (Camera.mount props0 false).

(** The button pressed three times before the first response: started
    at 500, stopped, started again at 600. *)
Definition pressed_three_times : list Camera.event :=
  [Camera.ClickLiveDetection tick_500;
   Camera.ClickLiveDetection tick_600;
   Camera.ClickLiveDetection tick_600].


(** Capacity 2, full. *)
Definition queue_full_two : FrameQueue.FrameQueue string :=
  {| FrameQueue.queue := FrameQueue.Deque ["f1"; "f2"] 2;
     FrameQueue.dropped_frames := 0;
     FrameQueue.max_size := Some 2%nat |}.

(** A reply that has detections but no recv_ts. *)
Definition result_without_recv_ts : Camera.Response.t :=
  {| Camera.Response.capture_ts := Some 1000;
     Camera.Response.recv_ts := Js.NaN;
     Camera.Response.inference_ts := Some 1090;
     Camera.Response.detections := Camera.Elements (Some <$> [cat]) |}.

(** A reply with a null between two detections. *)
Definition result_with_null : Camera.Response.t :=
  {| Camera.Response.capture_ts := Some 1000;
     Camera.Response.recv_ts := Some 1050;
     Camera.Response.inference_ts := Some 1090;
     Camera.Response.detections := Camera.Elements ((Some <$> [cat]) ++ None :: [Some dog]) |}.

(** A well-formed reply, as a record. *)
Definition result_with_cat : Camera.Response.t :=
  {| Camera.Response.capture_ts := Some 1000;
     Camera.Response.recv_ts := Some 1050;
     Camera.Response.inference_ts := Some 1090;
     Camera.Response.detections := Camera.Elements (Some <$> [cat]) |}.

(** The first request of a live loop has failed; the activation waits
    for the next animation frame. *)
Definition after_network_error : Camera.state :=
  Camera.step props0 (Camera.FetchSettled 0 Camera.NetworkError 1120 1125) live_1000.


(** The component with live detection running and no photo pending. *)
Definition live_ui : Photo.ui :=
  {| Photo.cam := live_1000; Photo.photos := ∅; Photo.photo_uncaught := [] |}.

(** ... and then "Capture Photo" pressed. *)
Definition photo_pending : Photo.ui :=
  Photo.ui_step props0 (Photo.ClickCapturePhoto tick_2000) live_ui.

(** A session with live frames and a photo. *)
Definition mixed_session : list Photo.ui_event :=
  [Photo.Live (Camera.ClickLiveDetection tick_1000);
   Photo.Live (Camera.FetchSettled 0 (Camera.reply 1000 1050 1090 [cat]) 1120 1125);
   Photo.Live (Camera.AnimationFrame 0 tick_2000);
   Photo.ClickCapturePhoto tick_2000;
   Photo.PhotoSettled 2 (Camera.reply 2000 2050 2090 [dog]) 2120 2125].

(** Three turns of the benchmark loop. *)
Definition three_draws : list Bench.draws :=
  [{| Bench.random1 := 199; Bench.random2 := 5; Bench.random3 := 7 |};
   {| Bench.random1 := 100; Bench.random2 := 39; Bench.random3 := 19 |};
   {| Bench.random1 := 32767; Bench.random2 := 0; Bench.random3 := 0 |}].

(* ===================================================================== *)
(** ** Properties of FrameQueue                                           *)
(* ===================================================================== *)

Section FrameQueueProperties.
Import FrameQueue.
Context {Frame : Type}.
Implicit Types (self : FrameQueue Frame) (f : Frame) (fs : list Frame).

(** As constructed, an instance lacks the attribute that [add_frame]
    reads: the first call raises. *)
Lemma add_frame_after_init (N : nat) f :
  add_frame (__init__ N) f = Raise (AttributeError "max_size").
Proof. reflexivity. Qed.

Lemma add_frame_room (N : nat) self f :
  well_formed N self → (len (queue self) < N)%nat →
  add_frame self f =
    Ok (None, {| queue := Deque (items (queue self) ++ [f]) N;
                 dropped_frames := dropped_frames self;
                 max_size := Some N |}).
Proof.
  intros (Hattr & Hmax & _) Hlt. unfold add_frame. rewrite Hattr.
  destruct (Nat.leb_spec N (len (queue self))) as [Hle|_]; [lia|].
  unfold append. rewrite Hmax.
  destruct (Nat.ltb_spec (len (queue self)) N) as [_|Hge]; [done|lia].
Qed.

Lemma add_frame_full (N : nat) self f :
  well_formed N self → (1 <= N)%nat → len (queue self) = N →
  add_frame self f =
    Ok (None, {| queue := Deque (tail (items (queue self)) ++ [f]) N;
                 dropped_frames := S (dropped_frames self);
                 max_size := Some N |}).
Proof.
  intros (Hattr & Hmax & _) HN Hlen. unfold add_frame. rewrite Hattr.
  destruct (Nat.leb_spec N (len (queue self))) as [_|Hlt]; [|lia].
  unfold popleft, len in *.
  destruct (items (queue self)) as [|x rest] eqn:Hitems; simpl in Hlen; [lia|].
  unfold append, len. simpl. rewrite Hmax.
  destruct (Nat.ltb_spec (length rest) N) as [_|Hge]; [done|lia].
Qed.

(** [add_frame] never raises on a well-formed queue of capacity at least
    one, hands [None] back, and leaves the queue well formed. *)
Lemma add_frame_well_formed (N : nat) self f :
  well_formed N self → (1 <= N)%nat →
  ∃ self', add_frame self f = Ok (None, self') ∧ well_formed N self'.
Proof.
  intros Hwf HN. pose proof Hwf as (Hattr & Hmax & Hle).
  destruct (decide (len (queue self) = N)) as [Heq|Hne].
  - eexists. split; [by apply add_frame_full|].
    repeat split; simpl. unfold len in *. simpl.
    destruct (items (queue self)); simpl in *; [lia|].
    rewrite length_app. simpl. lia.
  - eexists. split; [apply add_frame_room; [done|lia]|].
    repeat split; simpl. unfold len in *. simpl.
    rewrite length_app. simpl. lia.
Qed.

Lemma add_frames_well_formed (N : nat) fs : ∀ self,
  well_formed N self → (1 <= N)%nat →
  ∃ self', add_frames self fs = Ok (replicate (length fs) None, self')
           ∧ well_formed N self'.
Proof.
  induction fs as [|f fs IH]; intros self Hwf HN; simpl.
  - by exists self.
  - destruct (add_frame_well_formed N self f Hwf HN) as (self1 & -> & Hwf1).
    destruct (IH self1 Hwf1 HN) as (self2 & -> & Hwf2).
    by exists self2.
Qed.

Lemma add_frames_app fs1 fs2 : ∀ self rs self1,
  add_frames self fs1 = Ok (rs, self1) →
  add_frames self (fs1 ++ fs2) =
    match add_frames self1 fs2 with
    | Raise e => Raise e
    | Ok (rs2, self2) => Ok (rs ++ rs2, self2)
    end.
Proof.
  induction fs1 as [|f fs1 IH]; intros self rs self1 H; simpl in *.
  - injection H as <- <-. by destruct (add_frames self fs2) as [[]|].
  - destruct (add_frame self f) as [[r selfa]|]; [|done].
    destruct (add_frames selfa fs1) as [[rsa selfb]|] eqn:E; [|done].
    injection H as <- <-. rewrite (IH _ _ _ E).
    by destruct (add_frames selfb fs2) as [[]|].
Qed.

(** While there is room, every frame offered is kept, in order. *)
Lemma add_frames_room (N : nat) fs : ∀ self,
  well_formed N self → (len (queue self) + length fs <= N)%nat →
  add_frames self fs =
    Ok (replicate (length fs) None,
        {| queue := Deque (items (queue self) ++ fs) N;
           dropped_frames := dropped_frames self;
           max_size := Some N |}).
Proof.
  induction fs as [|f fs IH]; intros self Hwf Hle; simpl in *.
  - destruct Hwf as (Hattr & Hmax & _). rewrite app_nil_r.
    destruct self as [[its ml] d ms]; simpl in *. by subst.
  - rewrite (add_frame_room N) by (done || lia).
    rewrite IH; simpl.
    + by rewrite <- app_assoc.
    + repeat split; simpl. unfold len in *; simpl. rewrite length_app; simpl; lia.
    + unfold len in *; simpl. rewrite length_app; simpl; lia.
Qed.


(** C3, as amended.  On a queue whose [max_size] attribute holds its
    capacity [N >= 1], [add_frame] never raises, hands [None] back to the
    caller and keeps [len(queue) <= N], whatever the sequence of offers;
    offering [f1 .. f_{N+1}] to it, empty, evicts [f1], counts the drop
    in the queue's own [dropped_frames], and leaves exactly
    [f2 .. f_{N+1}] queued. *)
Theorem C3_add_frame_drops_oldest (N : nat) self f1 (rest : list Frame) :
  (1 <= N)%nat →
  max_size self = Some N → maxlen (queue self) = N → items (queue self) = [] →
  length rest = N →
  (∀ fs, ∃ self', add_frames self fs = Ok (replicate (length fs) None, self')
                  ∧ (len (queue self') <= N)%nat)
  ∧ add_frames self (f1 :: rest) =
      Ok (replicate (S N) None,
          {| queue := Deque rest N;
             dropped_frames := S (dropped_frames self);
             max_size := Some N |}).
Proof.
  intros HN Hattr Hmax Hempty Hlen.
  assert (Hwf : well_formed N self).
  { repeat split; try done. unfold len. rewrite Hempty. simpl. lia. }
  split.
  - intros fs. destruct (add_frames_well_formed N fs self Hwf HN) as (self' & E & Hwf').
    exists self'. split; [done|]. by destruct Hwf' as (_ & _ & ?).
  - destruct rest as [|x rest0 _] using rev_ind; [simpl in Hlen; lia|].
    rewrite length_app in Hlen. simpl in Hlen.
    change (f1 :: rest0 ++ [x]) with ((f1 :: rest0) ++ [x]).
    erewrite add_frames_app; last first.
    { apply (add_frames_room N); [done|]. unfold len. rewrite Hempty. simpl. lia. }
    simpl. rewrite (add_frame_full N); simpl.
    + rewrite Hempty. simpl.
      replace (length rest0) with (N - 1)%nat by lia.
      change (None :: replicate (N - 1) None ++ [None])
        with (replicate (S (N - 1)) (@None Frame) ++ [None]).
      rewrite <- replicate_S_end. by replace (S (N - 1)) with N by lia.
    + repeat split; simpl. unfold len; simpl. rewrite Hempty; simpl. lia.
    + done.
    + unfold len; simpl. rewrite Hempty; simpl. lia.
Qed.

(** C4.  On a queue that holds [skipped ++ [newest]], [takeLatest]
    removes and returns [newest], the frame enqueued last, and counts
    every frame it skipped as a drop; on an empty queue it returns nil,
    without error, and changes nothing. *)
Theorem C4_takeLatest_returns_newest self (skipped : list Frame) (newest : Frame) :
  items (queue self) = skipped ++ [newest] →
  (∃ self', takeLatest self = Ok (Some newest, self')
            ∧ items (queue self') = []
            ∧ dropped_frames self' = (dropped_frames self + length skipped)%nat
            ∧ takeLatest self' = Ok (None, self'))
  ∧ (∀ empty : FrameQueue Frame,
       items (queue empty) = [] → takeLatest empty = Ok (None, empty)).
Proof.
  intros Hitems. split.
  - unfold takeLatest. rewrite Hitems, rev_unit. eexists. split; [done|].
    simpl. by rewrite length_rev.
  - intros empty Hempty. unfold takeLatest. by rewrite Hempty.
Qed.

End FrameQueueProperties.

(** C3 at capacity 2: offering f1, f2, f3 leaves f2, f3 and one drop
    counted. *)
Lemma C3_add_frame_drops_oldest_witness :
  FrameQueue.add_frames queue_of_two ["f1"; "f2"; "f3"] =
    FrameQueue.Ok ([None; None; None],
        {| FrameQueue.queue := FrameQueue.Deque ["f2"; "f3"] 2;
           FrameQueue.dropped_frames := 1;
           FrameQueue.max_size := Some 2%nat |}).
Proof.
  apply (C3_add_frame_drops_oldest 2 queue_of_two "f1" ["f2"; "f3"]);
    simpl; first [lia | reflexivity].
Defined.

(** C3 as stated fails: the third offer evicts f1, but what the caller
    gets back is [None], not f1. *)
Lemma C3_dropped_frame_not_returned :
  FrameQueue.add_frames queue_of_two ["f1"; "f2"; "f3"] =
    FrameQueue.Ok ([None; None; None],
        {| FrameQueue.queue := FrameQueue.Deque ["f2"; "f3"] 2;
           FrameQueue.dropped_frames := 1;
           FrameQueue.max_size := Some 2%nat |})
  ∧ ¬ (∃ self', FrameQueue.add_frames queue_of_two ["f1"; "f2"; "f3"] =
                  FrameQueue.Ok ([None; None; Some "f1"], self')).
Proof.
  split; [reflexivity|]. intros [self' H]. vm_compute in H. discriminate H.
Qed.

(** C4 after enqueuing f1, f2, f3: [takeLatest] returns f3, and f1 and
    f2 are counted as drops. *)
Lemma C4_takeLatest_returns_newest_witness :
  ∃ self',
    FrameQueue.takeLatest queue_after_three = FrameQueue.Ok (Some "f3", self')
    ∧ FrameQueue.items (FrameQueue.queue self') = []
    ∧ FrameQueue.dropped_frames self' = 2%nat
    ∧ FrameQueue.takeLatest self' = FrameQueue.Ok (None, self').
Proof.
  apply (C4_takeLatest_returns_newest queue_after_three ["f1"; "f2"] "f3").
  reflexivity.
Defined.

(* ===================================================================== *)
(** ** Properties of the camera component: runs on given inputs           *)
(* ===================================================================== *)

Section CameraRuns.
Import Camera.

(** C1, evaluated.  The frame is captured at 1000 in a loop turn begun
    at 990; the reply carries capture_ts=1000, recv_ts=1050,
    inference_ts=1090 and is read at now=1120; line 209 runs at 1120
    too.  Network and server latency are recorded as 50 and 40.  The
    total [now - capture_ts = 120] is computed and dropped; the total
    that is recorded is the loop turn's own, 130. *)
Theorem C1_total_latency_not_recorded :
  let s := step props0 (FetchSettled 0 (reply 1000 1050 1090 []) 1120 1120) live_1000 in
  networkLatency s = Some 50
  ∧ serverLatency s = Some 40
  ∧ Js.sub (Some 1120) (Some 1000) = Some 120
  ∧ totalTime s = Some 130
  ∧ totalTime s ≠ Some 120.
Proof. vm_compute. repeat split; congruence. Qed.

(** C2 as stated fails: with recv_ts=900 before capture_ts=1000 the
    sample is not rejected; the network latency recorded is -100. *)
Lemma C2_negative_sample_recorded :
  let s := step props0 (FetchSettled 0 (reply 1000 900 940 []) 1120 1120) live_1000 in
  networkLatency s = Some (-100)
  ∧ ¬ sample_rejected live_1000 s
  ∧ console s = [].
Proof.
  vm_compute. repeat split; try congruence.
  intros (H & _). discriminate H.
Qed.

(** C5, evaluated.  The reply to the first live frame is valid JSON
    whose [detections] is not an array.  [drawDetections] clears the
    canvas and throws; nothing catches it, so the activation of
    [runLiveDetection] ends there: no activation is left to take the
    next animation frame, no further request is issued, and the flag
    still reads as running. *)
Theorem C5_malformed_detections_end_the_loop :
  let s := step props0 (FetchSettled 0 reply_without_array 1120 1125) live_1000 in
  activations s = ∅
  ∧ uncaught s = [(0%nat, Js.TypeError "detections.forEach is not a function")]
  ∧ liveDetection s = true
  ∧ canvas s = []
  ∧ step props0 (AnimationFrame 0 tick_2000) s = s
  ∧ length (sent (step props0 (AnimationFrame 0 tick_2000) s)) = 1%nat.
Proof. vm_compute. repeat split. Qed.

(** The same frame with a request that fails: the activation goes on to
    wait for the next animation frame, then issues the next request. *)
Lemma network_error_loop_goes_on :
  let s := step props0 (FetchSettled 0 NetworkError 1120 1125) live_1000 in
  activations s !! 0%nat = Some AwaitFrame
  ∧ uncaught s = []
  ∧ in_flight (step props0 (AnimationFrame 0 tick_2000) s) = [1%nat].
Proof. vm_compute. repeat split. Qed.

(** A null among the detections ends the activation the same way, after
    the detections before it have been drawn. *)
Lemma null_detection_ends_the_loop :
  let r := Http 200 (Some (JsonValue
             {| Response.capture_ts := Some 1000;
                Response.recv_ts := Some 1050;
                Response.inference_ts := Some 1090;
                Response.detections := Elements [Some cat; None; Some dog] |})) in
  let s := step props0 (FetchSettled 0 r 1120 1125) live_1000 in
  activations s = ∅
  ∧ uncaught s = [(0%nat, Js.TypeError "Cannot destructure null")]
  ∧ overlay s = [cat].
Proof. vm_compute. repeat split. Qed.


(** C7 as stated fails.  Live detection is running; the tab is hidden
    and shown again.  The flag stays cleared: once the pending response
    and the next animation frame have come, no activation is left and
    no second frame has been captured. *)
Lemma C7_resume_does_not_restart :
  let s := run props0 [VisibilityChange true; VisibilityChange false] live_1000 in
  let s' := run props0 [FetchSettled 0 (reply 1000 1050 1090 []) 1120 1125;
                        AnimationFrame 0 tick_2000] s in
  liveDetection live_1000 = true
  ∧ liveDetection s = false
  ∧ SSR s = false
  ∧ liveDetection s' = false
  ∧ activations s' = ∅
  ∧ length (sent s') = 1%nat.
Proof. vm_compute. repeat split. Qed.

(** What the component does with a result once the tab has been hidden
    and shown again: the activation draws it through the context it
    holds, on the canvas that was taken down; the canvas now on show
    stays blank. *)
Lemma result_after_remount_not_on_show :
  let s := run props0 [VisibilityChange true; VisibilityChange false] live_1000 in
  let s' := step props0 (FetchSettled 0 (reply 1000 1050 1090 [cat]) 1120 1125) s in
  on_show 0 live_1000 = true
  ∧ on_show 0 s = false
  ∧ canvas s = []
  ∧ drawn s' = [0%nat]
  ∧ canvas s' = []
  ∧ overlay s' = [].
Proof. vm_compute. repeat split. Qed.

(** A visibility signal that does not change what is rendered takes no
    canvas down. *)
Lemma same_visibility_keeps_canvas :
  let s := step props0 (VisibilityChange false) live_1000 in
  on_show 0 s = true ∧ canvas s = canvas live_1000.
Proof. vm_compute. repeat split. Qed.

(** Past 2^53 a difference is what subtraction on doubles gives: the
    nearest double, ties to the even significand. *)
Lemma sub_rounds_past_2_53 :
  Js.sub (Some (2 ^ 53)) (Some (-1)) = Some (2 ^ 53)
  ∧ Js.sub (Some (2 ^ 53)) (Some (-2)) = Some (2 ^ 53 + 2)
  ∧ Js.sub (Some (2 ^ 53)) (Some (-3)) = Some (2 ^ 53 + 4)
  ∧ Js.sub (Some (- 2 ^ 53)) (Some 1) = Some (- 2 ^ 53)
  ∧ Js.sub (Some (2 ^ 53)) (Some 1) = Some (2 ^ 53 - 1).
Proof. vm_compute. repeat split. Qed.

(** C9 as stated fails for a malformed body that parses: the body is
    handed back to the caller as it came, not null. *)
Lemma C9_malformed_body_not_null :
  ∃ result, fst (sendFrameToServer_resume reply_without_array 1120 live_1000) = Js.Normal (Some result)
            ∧ Response.detections result = NotAnArray.
Proof. eexists. vm_compute. split; reflexivity. Qed.

(** C10, evaluated.  Three presses of the button before the first
    response leave two activations of [runLiveDetection], each with a
    request pending.  The responses come back newest first and are
    drawn in that order; both activations then go on, so two requests
    are pending again. *)
Theorem C10_two_requests_in_flight :
  let s := run props0 pressed_three_times (mount props0 false) in
  let s' := run props0 [FetchSettled 1 (reply 600 650 690 [dog]) 700 700;
                        FetchSettled 0 (reply 500 750 790 [cat]) 800 800] s in
  let s'' := run props0 [AnimationFrame 1 tick_1000; AnimationFrame 0 tick_2000] s' in
  liveDetection s = true
  ∧ in_flight s = [1%nat; 0%nat]
  ∧ (Payload.frame_id ∘ body <$> sent s) = ["frame_0"; "frame_1"]
  ∧ drawn s' = [1%nat; 0%nat]
  ∧ size (activations s') = 2%nat
  ∧ length (in_flight s'') = 2%nat.
Proof. vm_compute. repeat split. Qed.

End CameraRuns.

(* ===================================================================== *)
(** ** Properties of the camera component: every run                      *)
(* ===================================================================== *)

Section CameraProperties.
Import Camera.
Context (props : Props).
Implicit Types (s : state) (e : event) (es : list event) (t : tick) (r : response).

Lemma same_control_refl s : same_control s s.
Proof. by repeat split. Qed.

Lemma forEach_elements (ds : list Detection) : ∀ c,
  forEach (Some <$> ds) c = (Js.Normal tt, c ++ (DrawBox <$> ds)).
Proof.
  induction ds as [|d ds IH]; intros c; simpl.
  - by rewrite app_nil_r.
  - rewrite IH. by rewrite <- app_assoc.
Qed.

Lemma overlay_boxes s (ds : list Detection) :
  canvas s = DrawBox <$> ds → overlay s = ds.
Proof.
  unfold overlay. intros ->. induction ds as [|d ds IH]; [done|].
  rewrite fmap_cons. simpl. by f_equal.
Qed.

(** [sendFrameToServer] never throws, and touches nothing but the
    latencies shown and the console. *)
Lemma sendFrameToServer_resume_normal r now s :
  ∃ v s', sendFrameToServer_resume r now s = (Js.Normal v, s')
          ∧ same_control s s' ∧ canvas s' = canvas s ∧ drawn s' = drawn s
          ∧ (v = None ↔ request_failed r = true).
Proof.
  unfold sendFrameToServer_resume, sendFrameToServer_try, request_failed.
  destruct r as [|status [[|result]|]]; simpl.
  - eexists _, _. split; [done|]. by repeat split.
  - destruct (ok status); simpl; eexists _, _; (split; [done|]); by repeat split.
  - destruct (ok status); simpl; eexists _, _; (split; [done|]);
      repeat split; try done; try congruence.
  - destruct (ok status); simpl; eexists _, _; (split; [done|]); by repeat split.
Qed.

(** [drawDetections] touches the canvas only. *)
Lemma drawDetections_same_control dv s :
  same_control s (drawDetections dv s).2 ∧ drawn (drawDetections dv s).2 = drawn s.
Proof.
  unfold drawDetections. destruct dv as [|ds|]; simpl; [by repeat split| |by repeat split].
  destruct (forEach ds []) as [c painted]. simpl. by repeat split.
Qed.

Lemma runServerInference_resume_same_control rid r now s :
  same_control s (runServerInference_resume rid r now s).2.
Proof.
  unfold runServerInference_resume.
  destruct (sendFrameToServer_resume_normal r now s) as (v & s1 & -> & Hsame & _).
  destruct v as [result|]; [|done].
  assert (Hdraw : ∀ dv c s2, drawDetections dv (note_drawn rid s1) = (c, s2) →
            same_control s (if on_show rid s then s2 else set_canvas (canvas s) s2)).
  { intros dv c s2 Hd.
    destruct (drawDetections_same_control dv (note_drawn rid s1)) as [H _].
    rewrite Hd in H. unfold same_control in *.
    destruct (on_show rid s); simpl in *; intuition congruence. }
  destruct (Response.detections result) as [|ds|]; [done| |];
    (destruct (drawDetections _ _) as [c s2] eqn:Hd; simpl; by eapply Hdraw).
Qed.

(** Between stamps the subtraction is exact. *)
Lemma sub_stamps (x y : Z) :
  Js.stamp x → Js.stamp y → Js.sub (Some x) (Some y) = Some (x - y).
Proof.
  unfold Js.stamp, Js.sub, Js.round. intros Hx Hy.
  destruct (Z.leb_spec (Z.abs (x - y)) (2 ^ 53)); [done|lia].
Qed.

(** What a result does to the canvas on show when it is drawn through
    the context held for request [rid]. *)
Lemma runServerInference_resume_elements
    (rid : nat) (status : Z) (result : Response.t) (ds : list Detection) (now : Z) s :
  ok status = true →
  Response.detections result = Elements (Some <$> ds) →
  ∃ s', runServerInference_resume rid (Http status (Some (JsonValue result))) now s
          = (Js.Normal tt, s')
        ∧ canvas s' = (if on_show rid s then DrawBox <$> ds else canvas s)
        ∧ drawn s' = drawn s ++ [rid]
        ∧ activations s' = activations s
        ∧ uncaught s' = uncaught s
        ∧ liveDetection s' = liveDetection s
        ∧ SSR s' = SSR s
        ∧ sent s' = sent s
        ∧ canvasId s' = canvasId s
        ∧ contexts s' = contexts s.
Proof.
  intros Hok Hds.
  unfold runServerInference_resume, sendFrameToServer_resume, sendFrameToServer_try.
  rewrite Hok. simpl. rewrite Hds.
  unfold drawDetections. rewrite forEach_elements. simpl.
  eexists. split; [done|]. by destruct (on_show rid s).
Qed.

(** C2, as amended.  For a reply whose stamps are whole milliseconds
    between 0 and 2^53, the latencies computed from it are recorded as
    computed, whatever their signs: network = recv_ts - capture_ts and
    server = inference_ts - recv_ts, the latter also as the inference
    time; the reply is returned to the caller and nothing is logged. *)
Theorem C2_latencies_recorded_whatever_their_sign
    (status : Z) (result : Response.t) (capture recv inference now : Z) s :
  ok status = true →
  Response.capture_ts result = Some capture →
  Response.recv_ts result = Some recv →
  Response.inference_ts result = Some inference →
  Js.stamp capture → Js.stamp recv → Js.stamp inference →
  ∃ s', sendFrameToServer_resume (Http status (Some (JsonValue result))) now s
          = (Js.Normal (Some result), s')
        ∧ networkLatency s' = Some (recv - capture)
        ∧ serverLatency s' = Some (inference - recv)
        ∧ inferenceTime s' = Some (inference - recv)
        ∧ console s' = console s.
Proof.
  intros Hok Hc Hr Hi Sc Sr Si.
  unfold sendFrameToServer_resume, sendFrameToServer_try.
  rewrite Hok, Hc, Hr, Hi. cbn [negb].
  rewrite !sub_stamps by done. eexists. by repeat split.
Qed.


(** C9, as amended.  [sendFrameToServer] never throws.  It returns null
    exactly when the request failed: [fetch] rejected, the status was
    not OK, the body was not JSON, or it was the JSON null; any other
    body, well-formed or not, is returned as it came.  After a null the
    activation of the live loop goes on to wait for the next animation
    frame, with the canvas and the flag as they were. *)
Theorem C9_sendFrameToServer_total
    (rid : nat) (startTime : Z) r (now done : Z) s :
  activations s !! rid = Some (AwaitFetch startTime) →
  (∃ v s', sendFrameToServer_resume r now s = (Js.Normal v, s')
           ∧ (v = None ↔ request_failed r = true)
           ∧ (∀ status result, r = Http status (Some (JsonValue result)) →
                ok status = true → v = Some result))
  ∧ (request_failed r = true →
     let s' := step props (FetchSettled rid r now done) s in
     activations s' !! rid = Some AwaitFrame
     ∧ uncaught s' = uncaught s
     ∧ liveDetection s' = liveDetection s
     ∧ canvas s' = canvas s).
Proof.
  intros Hact.
  destruct (sendFrameToServer_resume_normal r now s)
    as (v & s1 & Hres & Hsame & Hcanvas & _ & Hnull).
  split.
  - exists v, s1. repeat split; try done; try apply Hnull.
    intros status result -> Hok. revert Hres.
    unfold sendFrameToServer_resume, sendFrameToServer_try. rewrite Hok. simpl.
    by intros [= <- _].
  - intros Hfail. apply Hnull in Hfail as ->.
    simpl. rewrite Hact. unfold runServerInference_resume. rewrite Hres.
    destruct Hsame as (Hlive & _ & _ & _ & _ & _ & Hunc). simpl.
    by rewrite lookup_insert_eq.
Qed.

(** *** While the flag is down *)

(** With the flag down, no event but a press of the button raises it,
    and none captures a frame. *)
Lemma step_stopped e s :
  is_click e = false →
  liveDetection s = false →
  liveDetection (step props e s) = false ∧ sent (step props e s) = sent s.
Proof.
  intros Hnc Hflag. destruct e as [t| |hidden|rid r now done|rid t]; simpl.
  - done.
  - by destruct (SSR s).
  - unfold handleVisibilityChange. by destruct hidden, (SSR s).
  - destruct (activations s !! rid) as [[startTime|]|]; try done.
    pose proof (runServerInference_resume_same_control rid r now s) as Hsame.
    destruct (runServerInference_resume rid r now s) as [[u|err] s1];
      destruct Hsame as (Hlive & _ & _ & _ & _ & Hsent & _); simpl in *;
      split; congruence.
  - destruct (activations s !! rid) as [[startTime|]|]; try done.
    unfold loop_head. simpl. by rewrite Hflag.
Qed.

Lemma run_stopped es : ∀ s,
  no_click es = true →
  liveDetection s = false →
  liveDetection (run props es s) = false ∧ sent (run props es s) = sent s.
Proof.
  induction es as [|e es IH]; intros s Hnc Hflag; [done|].
  simpl in Hnc. apply andb_prop in Hnc as [He Hes].
  apply negb_true_iff in He.
  destruct (step_stopped e s He Hflag) as [Hflag1 Hsent1].
  destruct (IH (step props e s) Hes Hflag1) as [Hflag2 Hsent2].
  simpl. split; congruence.
Qed.

(** *** One start, one request at a time *)

Lemma in_flight_bound s : (length (in_flight s) <= size (activations s))%nat.
Proof.
  unfold in_flight. rewrite <- length_map_to_list.
  induction (map_to_list (activations s)) as [|[k [st|]] l IH]; simpl; [lia| |];
    change (list_omap _ _ ?f l) with (omap f l); lia.
Qed.

(** No event but a press of the button adds an activation. *)
Lemma step_activations e s :
  is_click e = false →
  (size (activations (step props e s)) <= size (activations s))%nat.
Proof.
  intros Hnc. destruct e as [t| |hidden|rid r now done|rid t]; simpl.
  - done.
  - by destruct (SSR s).
  - unfold handleVisibilityChange. by destruct hidden, (SSR s).
  - destruct (activations s !! rid) as [[startTime|]|] eqn:Hact; try done.
    pose proof (runServerInference_resume_same_control rid r now s) as Hsame.
    destruct (runServerInference_resume rid r now s) as [[u|err] s1];
      destruct Hsame as (_ & _ & _ & _ & Hacts & _); simpl in *; rewrite Hacts.
    + rewrite map_size_insert_Some; [done|by eexists].
    + rewrite map_size_delete, Hact. simpl. lia.
  - destruct (activations s !! rid) as [[startTime|]|] eqn:Hact; try done.
    unfold loop_head. simpl. destruct (liveDetection s); simpl.
    + rewrite map_size_insert, map_size_delete, Hact.
      assert (size (activations s) ≠ 0%nat).
      { intros H0. apply map_size_empty_inv in H0. rewrite H0 in Hact.
        by rewrite lookup_empty in Hact. }
      destruct (delete rid (activations s) !! length (sent s)); simpl; lia.
    + rewrite map_size_delete, Hact. simpl. lia.
Qed.

(** Started once and the button left alone, the live loop never has
    more than one request pending. *)
Lemma one_start_one_request es : ∀ s,
  no_click es = true →
  (size (activations s) <= 1)%nat →
  (length (in_flight (run props es s)) <= 1)%nat.
Proof.
  induction es as [|e es IH]; intros s Hnc Hsize.
  - pose proof (in_flight_bound s). simpl. lia.
  - simpl in Hnc. apply andb_prop in Hnc as [He Hes].
    apply negb_true_iff in He. simpl. apply IH; [done|].
    etrans; [by apply step_activations|done].
Qed.

(** *** The requests of a session *)

Lemma incr_min (n : Z) : Js.incr (Z.min n (2 ^ 53)) = Z.min (n + 1) (2 ^ 53).
Proof. unfold Js.incr. destruct (Z.ltb_spec (Z.min n (2 ^ 53)) (2 ^ 53)); lia. Qed.

Lemma tick_in_app t es es' : tick_in t es → tick_in t (es ++ es').
Proof.
  intros [H|[rid H]]; [left|right; exists rid]; apply elem_of_app; by left.
Qed.

(** What one turn of the loop sends. *)
Lemma loop_head_sends t s :
  liveDetection s = true →
  modelResolution s = currentModelResolution props →
  sent (loop_head props t s) = sent s ++ [request_numbered props (frameCounter s) t]
  ∧ frameCounter (loop_head props t s) = Js.incr (frameCounter s)
  ∧ modelResolution (loop_head props t s) = modelResolution s.
Proof.
  intros Hflag Hres. unfold loop_head. rewrite Hflag. simpl.
  unfold request_numbered, toDataURL. by rewrite Hres.
Qed.

Lemma session_inv_keep es e s s' :
  sent s' = sent s → frameCounter s' = frameCounter s →
  modelResolution s' = modelResolution s →
  session_inv props es s → session_inv props (es ++ [e]) s'.
Proof.
  intros Hsent Hcount Hres (Ic & Ir & Is). unfold session_inv.
  rewrite Hsent, Hcount, Hres. repeat split; try done.
  intros i req Hi. destruct (Is i req Hi) as (t & Hin & ->).
  exists t. split; [by apply tick_in_app|done].
Qed.

Lemma session_inv_send es e t s s0 :
  tick_in t (es ++ [e]) →
  sent s0 = sent s → frameCounter s0 = frameCounter s →
  modelResolution s0 = modelResolution s →
  liveDetection s0 = true →
  session_inv props es s → session_inv props (es ++ [e]) (loop_head props t s0).
Proof.
  intros Hin Hsent Hcount Hres Hflag (Ic & Ir & Is).
  destruct (loop_head_sends t s0 Hflag) as (Hs & Hc & Hr); [congruence|].
  unfold session_inv. rewrite Hs, Hc, Hr, Hsent, Hcount, Hres.
  repeat split; try done.
  - rewrite Ic, incr_min, length_app. simpl. f_equal. lia.
  - intros i req Hi. apply lookup_snoc_Some in Hi as [[_ Hi]|[-> <-]].
    + destruct (Is i req Hi) as (t' & Hin' & ->).
      exists t'. split; [by apply tick_in_app|done].
    + exists t. split; [done|]. by rewrite Ic.
Qed.

Lemma session_inv_step es e s :
  session_inv props es s → session_inv props (es ++ [e]) (step props e s).
Proof.
  intros Hinv. destruct e as [t| |hidden|rid r now done|rid t]; simpl.
  - destruct (SSR s); [by apply (session_inv_keep es _ s)|].
    unfold onClickLiveDetection, runLiveDetection.
    destruct (liveDetection s) eqn:Hflag; [by apply (session_inv_keep es _ s)|].
    apply (session_inv_send es _ t s); try done.
    left. apply elem_of_app. right. by left.
  - destruct (SSR s); by apply (session_inv_keep es _ s).
  - unfold handleVisibilityChange.
    destruct hidden, (SSR s); by apply (session_inv_keep es _ s).
  - destruct (activations s !! rid) as [[startTime|]|];
      try by apply (session_inv_keep es _ s).
    pose proof (runServerInference_resume_same_control rid r now s) as Hsame.
    destruct (runServerInference_resume rid r now s) as [[u|err] s1];
      destruct Hsame as (_ & Hcount & _ & Hres & _ & Hsent & _); simpl in *;
      by apply (session_inv_keep es _ s).
  - destruct (activations s !! rid) as [[startTime|]|];
      try by apply (session_inv_keep es _ s).
    destruct (liveDetection s) eqn:Hflag.
    + apply (session_inv_send es _ t s); try done.
      right. exists rid. apply elem_of_app. right. by left.
    + unfold loop_head. simpl. rewrite Hflag.
      by apply (session_inv_keep es _ s).
Qed.

Lemma session_inv_run (hidden : bool) es :
  session_inv props es (run props es (mount props hidden)).
Proof.
  induction es as [|e es IH] using rev_ind.
  - by repeat split.
  - unfold run. rewrite fold_left_app. simpl. by apply session_inv_step.
Qed.

Lemma frame_id_inj (i j : nat) :
  "frame_" +:+ pretty (Z.of_nat i) = "frame_" +:+ pretty (Z.of_nat j) → i = j.
Proof.
  intros H. simpl in H. injection H as H.
  change (pretty (Z.of_nat i) = pretty (Z.of_nat j)) in H.
  apply (inj (pretty : Z → string)) in H. lia.
Qed.

(** C8.  The request that [sendFrameToServer] issues is the POST of
    exactly the record [{frame_id, capture_ts, image_data, model_name,
    resolution}], with the counter in [frame_id] and the clock reading
    it was given in [capture_ts].  In a session of at most 2^53 frames,
    the [i]-th request sent has [frame_id] ["frame_" i], [capture_ts]
    and [image_data] are the clock reading and the canvas content of the
    tick at which the frame was captured, [model_name] and [resolution]
    are those of the props; the frame ids of the session are pairwise
    distinct. *)
Theorem C8_request_payload (hidden : bool) es :
  let s := run props es (mount props hidden) in
  Z.of_nat (length (sent s)) ≤ 2 ^ 53 →
  (∀ (captureTs : Z) (s0 : state),
     sent (sendFrameToServer_send props captureTs s0) =
       sent s0 ++
         [{| url := serverUrl props +:+ "/api/detect";
             method := "POST";
             content_type := "application/json";
             body := {| Payload.frame_id := "frame_" +:+ pretty (frameCounter s0);
                        Payload.capture_ts := captureTs;
                        Payload.image_data := toDataURL (canvas s0);
                        Payload.model_name := modelName props;
                        Payload.resolution := modelResolution s0 |} |}])
  ∧ (∀ (i : nat) (req : Request), sent s !! i = Some req →
       ∃ t, tick_in t es ∧ req = request_for props i t)
  ∧ NoDup (Payload.frame_id ∘ body <$> sent s).
Proof.
  intros s Hlen. destruct (session_inv_run hidden es) as (_ & _ & Hsent).
  fold s in Hsent.
  assert (Hreq : ∀ (i : nat) (req : Request), sent s !! i = Some req →
                   ∃ t, tick_in t es ∧ req = request_for props i t).
  { intros i req Hi. destruct (Hsent i req Hi) as (t & Hin & ->).
    exists t. split; [done|]. unfold request_for.
    apply lookup_lt_Some in Hi. f_equal. lia. }
  split; [done|]. split; [done|].
  apply NoDup_alt. intros i j x Hi Hj.
  rewrite list_lookup_fmap in Hi, Hj.
  apply fmap_Some in Hi as (ri & Hi & ->), Hj as (rj & Hj & Heq).
  destruct (Hreq i ri Hi) as (ti & _ & ->), (Hreq j rj Hj) as (tj & _ & ->).
  simpl in Heq. by apply frame_id_inj.
Qed.

(** *** The total time shown *)

(** When an activation gets past the end of its request, the total time
    recorded is that of the loop turn: from [startTime], read before the
    capture, to [done], read after the drawing. *)
Lemma total_time_is_loop_time (rid : nat) (startTime : Z) r (now done : Z) s :
  activations s !! rid = Some (AwaitFetch startTime) →
  activations (step props (FetchSettled rid r now done) s) !! rid = Some AwaitFrame →
  totalTime (step props (FetchSettled rid r now done) s) = Some (done - startTime).
Proof.
  intros Hact. simpl. rewrite Hact.
  pose proof (runServerInference_resume_same_control rid r now s) as Hsame.
  destruct (runServerInference_resume rid r now s) as [[u|err] s1]; simpl; [done|].
  by rewrite lookup_delete_eq.
Qed.

End CameraProperties.

(* ===================================================================== *)
(** ** The general properties at the sample inputs                        *)
(* ===================================================================== *)

(** C2 at recv_ts=900, capture_ts=1000: the network latency recorded is
    900 - 1000. *)
Lemma C2_latencies_recorded_whatever_their_sign_witness :
  ∃ s', Camera.sendFrameToServer_resume (Camera.reply 1000 900 940 []) 1120 live_1000
          = (Js.Normal (Some {| Camera.Response.capture_ts := Some 1000;
                                Camera.Response.recv_ts := Some 900;
                                Camera.Response.inference_ts := Some 940;
                                Camera.Response.detections := Camera.Elements [] |}), s')
        ∧ Camera.networkLatency s' = Some (900 - 1000)
        ∧ Camera.serverLatency s' = Some (940 - 900)
        ∧ Camera.inferenceTime s' = Some (940 - 900)
        ∧ Camera.console s' = Camera.console live_1000.
Proof.
  apply (C2_latencies_recorded_whatever_their_sign 200 _ 1000 900 940 1120 live_1000);
    try reflexivity; unfold Js.stamp; lia.
Defined.


(** C8 on the session of three presses, two responses and two animation
    frames: four requests. *)
Lemma C8_request_payload_witness :
  let es := pressed_three_times ++
              [Camera.FetchSettled 1 (Camera.reply 600 650 690 [dog]) 700 700;
               Camera.FetchSettled 0 (Camera.reply 500 750 790 [cat]) 800 800;
               Camera.AnimationFrame 1 tick_1000;
               Camera.AnimationFrame 0 tick_2000] in
  let s := Camera.run props0 es (Camera.mount props0 false) in
  length (Camera.sent s) = 4%nat
  ∧ (∀ (i : nat) (req : Camera.Request), Camera.sent s !! i = Some req →
       ∃ t, Camera.tick_in t es ∧ req = Camera.request_for props0 i t)
  ∧ NoDup (Camera.Payload.frame_id ∘ Camera.body <$> Camera.sent s).
Proof.
  split; [reflexivity|].
  apply (C8_request_payload props0 false). vm_compute. discriminate.
Defined.

(** C9 on a request that ends in a network error: null is returned and
    the loop goes on. *)
Lemma C9_sendFrameToServer_total_witness :
  (∃ v s', Camera.sendFrameToServer_resume Camera.NetworkError 1120 live_1000 = (Js.Normal v, s')
           ∧ (v = None ↔ Camera.request_failed Camera.NetworkError = true)
           ∧ (∀ status result,
                Camera.NetworkError = Camera.Http status (Some (Camera.JsonValue result)) →
                Camera.ok status = true → v = Some result))
  ∧ (let s' := Camera.step props0 (Camera.FetchSettled 0 Camera.NetworkError 1120 1125) live_1000 in
     Camera.activations s' !! 0%nat = Some Camera.AwaitFrame
     ∧ Camera.uncaught s' = Camera.uncaught live_1000
     ∧ Camera.liveDetection s' = Camera.liveDetection live_1000
     ∧ Camera.canvas s' = Camera.canvas live_1000).
Proof.
  destruct (C9_sendFrameToServer_total props0 0 990 Camera.NetworkError 1120 1125
              live_1000 eq_refl) as [Htotal Hgoes_on].
  split; [exact Htotal|exact (Hgoes_on eq_refl)].
Defined.

(* ===================================================================== *)
(** ** FrameQueue: what the counter and the queue hold                    *)
(* ===================================================================== *)

Section FrameQueueAccounting.
Import FrameQueue.
Context {Frame : Type}.
Implicit Types (self : FrameQueue Frame) (f : Frame) (fs : list Frame).

(** One offer on a well-formed queue, in closed form. *)
Lemma add_frame_closed_form (N : nat) self f :
  well_formed N self → (1 <= N)%nat →
  add_frame self f =
    Ok (None,
        {| queue := Deque (drop (len (queue self) + 1 - N) (items (queue self) ++ [f])) N;
           dropped_frames := (dropped_frames self + (len (queue self) + 1 - N))%nat;
           max_size := Some N |}).
Proof.
  intros Hwf HN. pose proof Hwf as (_ & _ & Hle).
  destruct (decide (len (queue self) = N)) as [Heq|Hne].
  - rewrite (add_frame_full N) by done.
    replace (len (queue self) + 1 - N)%nat with 1%nat by lia.
    unfold len in Heq. destruct (items (queue self)) as [|x rest]; simpl in *; [lia|].
    rewrite drop_0. do 3 f_equal. lia.
  - rewrite (add_frame_room N) by (done || lia).
    replace (len (queue self) + 1 - N)%nat with 0%nat by lia.
    rewrite drop_0. do 3 f_equal. lia.
Qed.

Lemma add_frames_closed_form (N : nat) fs : ∀ self,
  well_formed N self → (1 <= N)%nat →
  add_frames self fs =
    Ok (replicate (length fs) None,
        {| queue := Deque (drop (len (queue self) + length fs - N)
                             (items (queue self) ++ fs)) N;
           dropped_frames := (dropped_frames self + (len (queue self) + length fs - N))%nat;
           max_size := Some N |}).
Proof.
  induction fs as [|f fs IH]; intros self Hwf HN.
  - pose proof Hwf as (Hattr & Hmax & Hle). simpl.
    replace (len (queue self) + 0 - N)%nat with 0%nat by lia.
    rewrite drop_0, app_nil_r, Nat.add_0_r.
    destruct self as [[its ml] d ms]; simpl in *. by subst.
  - pose proof Hwf as (_ & _ & Hle).
    simpl. rewrite (add_frame_closed_form N) by done.
    set (k := (len (queue self) + 1 - N)%nat).
    assert (Hk : (k <= length (items (queue self) ++ [f]))%nat).
    { rewrite length_app. unfold k, len. simpl. lia. }
    rewrite IH; [|repeat split; simpl|done]; last first.
    { unfold len. simpl. rewrite length_drop, length_app. unfold k, len in *. simpl. lia. }
    unfold len. simpl.
    rewrite length_drop, length_app. simpl.
    rewrite <- drop_app_le by done. rewrite drop_drop, <- app_assoc. simpl.
    unfold k, len in *. do 3 f_equal; [do 2 f_equal|]; lia.
Qed.

(** X1.  An instance that lacks the [max_size] attribute, as [__init__]
    leaves it, takes no frame: every non-empty sequence of offers ends
    by raising [AttributeError] at the first one. *)
Theorem add_frames_without_attribute self f fs :
  max_size self = None →
  add_frames self (f :: fs) = Raise (AttributeError "max_size")
  ∧ ∀ N : nat, add_frames (__init__ N) (f :: fs) = Raise (AttributeError "max_size").
Proof.
  intros Hattr. split; [|done]. simpl. unfold add_frame. by rewrite Hattr.
Qed.

(** X2.  On a well-formed queue of capacity [N >= 1], every frame
    offered is accounted for once: after any sequence of offers, the
    frames held plus the drops counted are those before plus the number
    offered, and the queue is still well formed. *)
Theorem add_frames_accounts_for_every_frame (N : nat) self fs :
  well_formed N self → (1 <= N)%nat →
  ∃ self', add_frames self fs = Ok (replicate (length fs) None, self')
    ∧ (len (queue self') + dropped_frames self'
       = len (queue self) + dropped_frames self + length fs)%nat
    ∧ well_formed N self'.
Proof.
  intros Hwf HN. pose proof Hwf as (_ & _ & Hle).
  eexists. split; [by apply (add_frames_closed_form N)|].
  unfold well_formed, len in *. simpl.
  rewrite length_drop, length_app. repeat split; lia.
Qed.

(** X3.  On a well-formed queue of capacity [N >= 1], the queue after
    any sequence of offers holds the [N] most recent frames (all of
    them, when there are fewer), in the order offered, and the counter
    has grown by the number of frames beyond capacity. *)
Theorem add_frames_keeps_most_recent (N : nat) self fs :
  well_formed N self → (1 <= N)%nat →
  ∃ self', add_frames self fs = Ok (replicate (length fs) None, self')
    ∧ items (queue self')
      = drop (length (items (queue self) ++ fs) - N) (items (queue self) ++ fs)
    ∧ dropped_frames self'
      = (dropped_frames self + (length (items (queue self) ++ fs) - N))%nat.
Proof.
  intros Hwf HN.
  eexists. split; [by apply (add_frames_closed_form N)|].
  simpl. rewrite length_app. by unfold len.
Qed.

(** X4.  On a well-formed queue of capacity [N >= 1], the explicit
    [popleft] changes nothing to what the queue holds: after
    [add_frame] the deque is what [append] alone would have made of it;
    [popleft] only decides whether the drop is counted. *)
Theorem add_frame_queue_is_append (N : nat) self f :
  well_formed N self → (1 <= N)%nat →
  ∃ self', add_frame self f = Ok (None, self')
    ∧ queue self' = append f (queue self)
    ∧ dropped_frames self'
      = (dropped_frames self + if decide (len (queue self) = N) then 1 else 0)%nat.
Proof.
  intros Hwf HN. pose proof Hwf as (Hattr & Hmax & Hle).
  destruct (decide (len (queue self) = N)) as [Heq|Hne].
  - eexists. split; [by apply (add_frame_full N)|]. simpl. split; [|lia].
    unfold append. rewrite Hmax.
    destruct (Nat.ltb_spec (len (queue self)) N) as [Hlt|_]; [lia|].
    by destruct N; [lia|].
  - eexists. split; [apply (add_frame_room N); [done|lia]|]. simpl. split; [|lia].
    unfold append. rewrite Hmax.
    by destruct (Nat.ltb_spec (len (queue self)) N) as [_|Hge]; [|lia].
Qed.

End FrameQueueAccounting.

(* ===================================================================== *)
(** ** The live loop: what each reply does                                *)
(* ===================================================================== *)

Section LiveLoop.
Import Camera.
Context (props : Props).
Implicit Types (s : state) (e : event) (es : list event) (t : tick) (r : response).

(** The two ways [sendFrameToServer] ends, in full. *)
Lemma sendFrameToServer_resume_cases r now s :
  (request_failed r = true
   ∧ ∃ err, sendFrameToServer_resume r now s = (Js.Normal None, console_error err s))
  ∨ (request_failed r = false
     ∧ ∃ status result,
         r = Http status (Some (JsonValue result)) ∧ ok status = true
         ∧ sendFrameToServer_resume r now s =
             (Js.Normal (Some result),
              let serverLat := Js.sub (Response.inference_ts result) (Response.recv_ts result) in
              setInferenceTime serverLat
                (setServerLatency serverLat
                   (setNetworkLatency
                      (Js.sub (Response.recv_ts result) (Response.capture_ts result)) s)))).
Proof.
  unfold sendFrameToServer_resume, sendFrameToServer_try, request_failed.
  destruct r as [|status [[|result]|]]; simpl.
  - left. split; [done|]. by eexists.
  - left. split; [by rewrite orb_true_r|]. destruct (ok status); by eexists.
  - destruct (ok status) eqn:Hok; simpl.
    + right. split; [done|]. by exists status, result.
    + left. split; [done|]. by eexists.
  - left. split; [by rewrite orb_true_r|]. destruct (ok status); by eexists.
Qed.

Lemma forEach_completion (ds : list (option Detection)) : ∀ c,
  (forEach ds c).1 =
    if existsb is_null ds then Js.Throw (Js.TypeError "Cannot destructure null")
    else Js.Normal tt.
Proof.
  induction ds as [|[d|] ds IH]; intros c; simpl; [done| |done]. apply IH.
Qed.

(** The drawing stops at the first null: what comes before it is on the
    canvas, what comes after is not. *)
Lemma forEach_until_null (ds : list Detection) (rest : list (option Detection)) : ∀ c,
  forEach ((Some <$> ds) ++ None :: rest) c =
    (Js.Throw (Js.TypeError "Cannot destructure null"), c ++ (DrawBox <$> ds)).
Proof.
  induction ds as [|d ds IH]; intros c; simpl.
  - by rewrite app_nil_r.
  - rewrite IH. by rewrite <- app_assoc.
Qed.

(** X5.  A failed request logs exactly one console error and changes
    nothing else: the latencies of the earlier frame stay on display.
    A reply that parses, with stamps that are whole numbers within
    2^53 of zero or missing, logs nothing, is handed to the caller as it
    came, and sets the network latency to recv_ts - capture_ts and both
    the server latency and the inference time to inference_ts - recv_ts,
    as doubles subtract (NaN when a stamp is missing). *)
Theorem sendFrameToServer_effects r now s :
  safe_reply r →
  if request_failed r then
    ∃ err, sendFrameToServer_resume r now s = (Js.Normal None, console_error err s)
  else
    ∃ status result s',
      r = Http status (Some (JsonValue result))
      ∧ sendFrameToServer_resume r now s = (Js.Normal (Some result), s')
      ∧ console s' = console s
      ∧ networkLatency s' = Js.sub (Response.recv_ts result) (Response.capture_ts result)
      ∧ serverLatency s' = Js.sub (Response.inference_ts result) (Response.recv_ts result)
      ∧ inferenceTime s' = serverLatency s'
      ∧ totalTime s' = totalTime s.
Proof.
  intros _.
  destruct (sendFrameToServer_resume_cases r now s)
    as [[-> Hfail]|[-> (status & result & -> & Hok & Hres)]]; [done|].
  exists status, result. eexists. split; [done|]. split; [exact Hres|]. by repeat split.
Qed.

(** X6.  A reply that lacks recv_ts has NaN recorded for the network
    latency, the server latency and the inference time; it is not
    rejected: the total time of the turn is recorded, the activation
    goes on, and its detections are drawn: they are the overlay when the
    canvas the frame was captured on is still the one on show. *)
Theorem reply_without_recv_ts
    (rid : nat) (startTime : Z) (status : Z) (result : Response.t)
    (ds : list Detection) (now done : Z) s :
  activations s !! rid = Some (AwaitFetch startTime) →
  on_show rid s = true →
  ok status = true →
  Response.recv_ts result = Js.NaN →
  Response.detections result = Elements (Some <$> ds) →
  let s' := step props (FetchSettled rid (Http status (Some (JsonValue result))) now done) s in
  networkLatency s' = Js.NaN ∧ serverLatency s' = Js.NaN ∧ inferenceTime s' = Js.NaN
  ∧ totalTime s' = Some (done - startTime)
  ∧ overlay s' = ds
  ∧ drawn s' = drawn s ++ [rid]
  ∧ activations s' !! rid = Some AwaitFrame.
Proof.
  intros Hact Hshow Hok Hrecv Hds. simpl. rewrite Hact.
  unfold runServerInference_resume, sendFrameToServer_resume, sendFrameToServer_try.
  rewrite Hok. simpl. rewrite Hds, Hrecv.
  unfold drawDetections. rewrite forEach_elements. simpl. rewrite Hshow. simpl.
  rewrite lookup_insert_eq.
  repeat split; try done.
  - by destruct (Response.inference_ts result).
  - by destruct (Response.inference_ts result).
  - by apply overlay_boxes.
Qed.

(** X7.  Which replies end an activation of the live loop, and what
    each kind leaves behind.  A reply ends the activation exactly when
    its status is OK and its parsed body has detections that are truthy
    but not an array of non-null elements: the exception is then left
    uncaught and the total time is not updated.  After every other
    reply the activation waits for the next animation frame, nothing is
    left uncaught, and the total time recorded is [done - startTime], the
    time of the loop turn. *)
Theorem reply_ends_loop_iff
    (rid : nat) (startTime : Z) r (now done : Z) s :
  activations s !! rid = Some (AwaitFetch startTime) →
  let s' := step props (FetchSettled rid r now done) s in
  if ends_loop r then
    activations s' !! rid = None
    ∧ (∃ err, uncaught s' = uncaught s ++ [(rid, err)])
    ∧ totalTime s' = totalTime s
  else
    activations s' !! rid = Some AwaitFrame
    ∧ uncaught s' = uncaught s
    ∧ totalTime s' = Some (done - startTime).
Proof.
  intros Hact. simpl. rewrite Hact. unfold runServerInference_resume.
  destruct (sendFrameToServer_resume_cases r now s)
    as [[Hfail (err & ->)]|[_ (status & result & -> & Hok & ->)]].
  - assert (ends_loop r = false) as ->.
    { destruct r as [|status [[|result]|]]; simpl in *; try done;
        destruct (ok status); simpl in *; done. }
    simpl. by rewrite lookup_insert_eq.
  - simpl. rewrite Hok. simpl.
    destruct (Response.detections result) as [|ds|]; simpl.
    + by rewrite lookup_insert_eq.
    + unfold drawDetections.
      pose proof (forEach_completion ds []) as Hc.
      destruct (forEach ds []) as [c painted]. simpl in Hc. subst c.
      destruct (existsb is_null ds), (on_show rid s); simpl.
      * rewrite lookup_delete_eq. split; [done|]. split; [by eexists|done].
      * rewrite lookup_delete_eq. split; [done|]. split; [by eexists|done].
      * by rewrite lookup_insert_eq.
      * by rewrite lookup_insert_eq.
    + destruct (on_show rid s); simpl;
        rewrite lookup_delete_eq; (split; [done|]); (split; [by eexists|done]).
Qed.

(** X8.  When the detections hold a null, those before it are drawn,
    those after it are not, and the activation ends; on the canvas the
    frame was captured on, if it is still the one on show, the
    detections before the null stay as the overlay. *)
Theorem null_detection_draws_prefix
    (rid : nat) (startTime : Z) (status : Z) (result : Response.t)
    (ds : list Detection) (rest : list (option Detection)) (now done : Z) s :
  activations s !! rid = Some (AwaitFetch startTime) →
  on_show rid s = true →
  ok status = true →
  Response.detections result = Elements ((Some <$> ds) ++ None :: rest) →
  let s' := step props (FetchSettled rid (Http status (Some (JsonValue result))) now done) s in
  overlay s' = ds
  ∧ activations s' !! rid = None
  ∧ uncaught s' = uncaught s ++ [(rid, Js.TypeError "Cannot destructure null")].
Proof.
  intros Hact Hshow Hok Hds. simpl. rewrite Hact.
  unfold runServerInference_resume, sendFrameToServer_resume, sendFrameToServer_try.
  rewrite Hok. simpl. rewrite Hds.
  unfold drawDetections. rewrite forEach_until_null. simpl. rewrite Hshow. simpl.
  rewrite lookup_delete_eq. split; [|done]. by apply overlay_boxes.
Qed.

End LiveLoop.

(* ===================================================================== *)
(** ** The live loop: turns, stops and resets                             *)
(* ===================================================================== *)

Section LiveLoopTurns.
Import Camera.
Context (props : Props).
Implicit Types (s : state) (e : event) (es : list event) (t : tick) (r : response).

(** X9.  A turn of the loop whose request fails leaves the captured
    video frame on the canvas and no detection: whatever the overlay
    showed before the turn is gone, and the activation waits for the
    next animation frame. *)
Theorem failed_turn_shows_no_detections
    (rid : nat) t r (now done : Z) s :
  activations s !! rid = Some AwaitFrame →
  liveDetection s = true →
  request_failed r = true →
  let s' := run props [AnimationFrame rid t; FetchSettled (length (sent s)) r now done] s in
  canvas s' = [DrawImage (image t)]
  ∧ overlay s' = []
  ∧ activations s' !! length (sent s) = Some AwaitFrame
  ∧ length (sent s') = S (length (sent s)).
Proof.
  intros Hact Hflag Hfail. unfold run. cbn [fold_left].
  set (s1 := step props (AnimationFrame rid t) s).
  assert (H1 : activations s1 !! length (sent s) = Some (AwaitFetch (startTime t))
               ∧ canvas s1 = [DrawImage (image t)]
               ∧ length (sent s1) = S (length (sent s))).
  { unfold s1. simpl. rewrite Hact. unfold loop_head. simpl. rewrite Hflag. simpl.
    rewrite lookup_insert_eq, length_app. simpl. repeat split. lia. }
  destruct H1 as (Hact1 & Hcanvas1 & Hlen1). clearbody s1.
  simpl. rewrite Hact1. unfold runServerInference_resume.
  destruct (sendFrameToServer_resume_cases r now s1)
    as [[_ (err & ->)]|[Hnot _]]; [|congruence].
  simpl. rewrite lookup_insert_eq. unfold overlay. simpl. by rewrite Hcanvas1.
Qed.


(** X11.  "Reset" clears the flag, but does not cancel the request that
    is pending: the activation still waits for it, and when its result
    arrives with a list of detections they are drawn; with the canvas
    of the captured frame still on show, they are the overlay after the
    reset, whatever the reset had cleared. *)
Theorem reset_then_result_redraws
    (rid : nat) (startTime : Z) (status : Z) (result : Response.t)
    (ds : list Detection) (now done : Z) s :
  SSR s = false →
  activations s !! rid = Some (AwaitFetch startTime) →
  on_show rid s = true →
  ok status = true →
  Response.detections result = Elements (Some <$> ds) →
  let s1 := step props ClickReset s in
  let s2 := step props (FetchSettled rid (Http status (Some (JsonValue result))) now done) s1 in
  liveDetection s1 = false
  ∧ activations s1 !! rid = Some (AwaitFetch startTime)
  ∧ overlay s2 = ds ∧ liveDetection s2 = false.
Proof.
  intros Hssr Hact Hshow Hok Hds. simpl. rewrite Hssr. simpl. rewrite Hact.
  unfold runServerInference_resume, sendFrameToServer_resume, sendFrameToServer_try.
  rewrite Hok. simpl. rewrite Hds.
  unfold drawDetections. rewrite forEach_elements. simpl.
  change (on_show rid (reset s)) with (on_show rid s).
  rewrite Hshow. simpl.
  repeat split. by apply overlay_boxes.
Qed.

(** X12.  Live detection started once from the mounted component, and
    the button left alone from then on: whatever else happens, at most
    one request is pending at any time. *)
Theorem single_start_single_request (hidden : bool) t es :
  no_click es = true →
  (length (in_flight (run props (ClickLiveDetection t :: es) (mount props hidden))) <= 1)%nat.
Proof.
  intros Hnc. simpl. apply one_start_one_request; [done|].
  destruct hidden; simpl.
  - rewrite map_size_empty. lia.
  - rewrite map_size_insert, lookup_empty. simpl. rewrite map_size_empty. lia.
Qed.

End LiveLoopTurns.

(* ===================================================================== *)
(** ** Live detection and "Capture Photo" together                        *)
(* ===================================================================== *)

Section WholeComponent.
Import Camera Photo.
Context (props : Props).
Implicit Types (s : state) (u : ui) (t : tick) (r : response).

(** *** The photo path runs the code of the live path *)

(** On the canvas of the component, [drawDetections] on a context is
    [drawDetections]. *)
Lemma drawDetections_on_agrees (detections : detections_value) s :
  drawDetections detections s =
    ((drawDetections_on detections (canvas s)).1,
     set_canvas (drawDetections_on detections (canvas s)).2 s).
Proof.
  unfold drawDetections, drawDetections_on.
  destruct detections as [|ds|]; try done.
  by destruct (forEach ds []).
Qed.

Lemma sendFrameToServer_send_from_agrees (captureTs : Z) s :
  sendFrameToServer_send_from props captureTs (canvas s) s
  = sendFrameToServer_send props captureTs s.
Proof. done. Qed.

(** On the canvas of the component, when the context held for the
    request is that of the canvas on show, [runServerInference] on a
    context is [runServerInference]: same completion, same canvas, same
    state. *)
Lemma runServerInference_on_agrees (rid : nat) r now s :
  on_show rid s = true →
  let '(completion, painted, s1) := runServerInference_on rid r now (canvas s) s in
  (runServerInference_resume rid r now s).1 = completion
  ∧ canvas (runServerInference_resume rid r now s).2 = painted
  ∧ same_control s1 (runServerInference_resume rid r now s).2
  ∧ networkLatency (runServerInference_resume rid r now s).2 = networkLatency s1
  ∧ serverLatency (runServerInference_resume rid r now s).2 = serverLatency s1
  ∧ drawn (runServerInference_resume rid r now s).2 = drawn s1.
Proof.
  intros Hshow. unfold runServerInference_on, runServerInference_resume.
  rewrite Hshow.
  destruct (sendFrameToServer_resume_cases r now s)
    as [[_ (err & ->)]|[_ (status & result & _ & _ & ->)]]; [by repeat split|].
  simpl. destruct (Response.detections result) as [|ds|]; simpl; try by repeat split.
  unfold drawDetections. destruct (forEach ds []) as [c painted]. by repeat split.
Qed.

(** *** What an event sends *)

Lemma step_sends_at_most_one (e : event) s : sends_at_most_one s (step props e s).
Proof.
  destruct e as [t| |hidden|rid r now done|rid t]; simpl.
  - destruct (SSR s); [by left|].
    unfold onClickLiveDetection, runLiveDetection.
    destruct (liveDetection s); [by left|].
    right. unfold loop_head. simpl. by eexists.
  - destruct (SSR s); by left.
  - unfold handleVisibilityChange. destruct hidden, (SSR s); by left.
  - destruct (activations s !! rid) as [[startTime|]|]; try by left.
    pose proof (runServerInference_resume_same_control rid r now s) as Hsame.
    destruct (runServerInference_resume rid r now s) as [[v|err] s1];
      destruct Hsame as (_ & Hcount & _ & _ & _ & Hsent & _); by left.
  - destruct (activations s !! rid) as [[startTime|]|]; try by left.
    unfold loop_head. simpl. destruct (liveDetection s); [|by left].
    right. simpl. by eexists.
Qed.

Lemma runServerInference_on_same_control (rid : nat) r now (c : list paint) s :
  same_control s (runServerInference_on rid r now c s).2
  ∧ canvas (runServerInference_on rid r now c s).2 = canvas s
  ∧ totalTime (runServerInference_on rid r now c s).2 = totalTime s.
Proof.
  unfold runServerInference_on.
  destruct (sendFrameToServer_resume_cases r now s)
    as [[_ (err & ->)]|[_ (status & result & _ & _ & ->)]]; [by repeat split|].
  simpl. destruct (Response.detections result) as [|ds|]; simpl; [by repeat split| |by repeat split].
  destruct (forEach ds []) as [c0 painted]. by repeat split.
Qed.

Lemma ui_step_sends_at_most_one (e : ui_event) u :
  sends_at_most_one (cam u) (cam (ui_step props e u)).
Proof.
  destruct e as [e|t|rid r now done]; simpl.
  - apply step_sends_at_most_one.
  - destruct (SSR (cam u)); [by left|]. right. simpl. by eexists.
  - destruct (photos u !! rid) as [p|]; [|by left].
    unfold processImage_resume.
    pose proof (runServerInference_on_same_control rid r now (box p) (cam u)) as Hsame.
    destruct (runServerInference_on rid r now (box p) (cam u)) as [[[v|err] c] s1];
      destruct Hsame as ((_ & Hcount & _ & _ & _ & Hsent & _) & _);
      destruct (on_show rid (cam u)); by left.
Qed.

Lemma ids_inv_step s s' : sends_at_most_one s s' → ids_inv s → ids_inv s'.
Proof.
  intros [[Hsent Hcount]|(req & Hsent & Hid & Hcount)] (Ic & Is); unfold ids_inv.
  - by rewrite Hsent, Hcount.
  - rewrite Hsent, Hcount, Ic, incr_min, length_app. simpl. split; [f_equal; lia|].
    intros i req' Hi. apply lookup_snoc_Some in Hi as [[_ Hi]|[-> <-]]; [by apply Is|].
    by rewrite Hid, Ic.
Qed.

Lemma ids_inv_ui_run (hidden : bool) (es : list ui_event) :
  ids_inv (cam (ui_run props es (ui_mount props hidden))).
Proof.
  induction es as [|e es IH] using rev_ind.
  - by split.
  - unfold ui_run. rewrite fold_left_app. simpl.
    eapply ids_inv_step; [apply ui_step_sends_at_most_one|exact IH].
Qed.

(** X13.  At every point of a session, live frames and photos alike,
    [frameCounter.current] is the number of requests issued so far, up
    to 2^53, where it stays. *)
Theorem frame_counter_counts_requests (hidden : bool) (es : list ui_event) :
  let s := cam (ui_run props es (ui_mount props hidden)) in
  frameCounter s = Z.min (Z.of_nat (length (sent s))) (2 ^ 53).
Proof. by destruct (ids_inv_ui_run hidden es). Qed.

(** X14.  In a session of at most 2^53 requests, live frames and photos
    share one numbering: the [i]-th request issued, whichever button it
    came from, carries the frame id ["frame_" i], and no two requests
    carry the same id. *)
Theorem frame_ids_distinct_across_paths (hidden : bool) (es : list ui_event) :
  let s := cam (ui_run props es (ui_mount props hidden)) in
  Z.of_nat (length (sent s)) ≤ 2 ^ 53 →
  (∀ (i : nat) (req : Request), sent s !! i = Some req →
     Payload.frame_id (body req) = "frame_" +:+ pretty (Z.of_nat i))
  ∧ NoDup (Payload.frame_id ∘ body <$> sent s).
Proof.
  intros s Hlen. destruct (ids_inv_ui_run hidden es) as (_ & Hsent). fold s in Hsent.
  assert (Hid : ∀ (i : nat) (req : Request), sent s !! i = Some req →
                  Payload.frame_id (body req) = "frame_" +:+ pretty (Z.of_nat i)).
  { intros i req Hi. rewrite (Hsent i req Hi).
    apply lookup_lt_Some in Hi. do 2 f_equal. lia. }
  split; [done|].
  apply NoDup_alt. intros i j x Hi Hj.
  rewrite list_lookup_fmap in Hi, Hj.
  apply fmap_Some in Hi as (ri & Hi & ->), Hj as (rj & Hj & Heq).
  simpl in Heq. rewrite (Hid i ri Hi), (Hid j rj Hj) in Heq.
  by apply frame_id_inj.
Qed.

(** *** The latencies on display *)

Lemma step_latencies_agree (e : event) s :
  inferenceTime s = serverLatency s →
  inferenceTime (step props e s) = serverLatency (step props e s).
Proof.
  intros Hagree. destruct e as [t| |hidden|rid r now done|rid t]; simpl.
  - destruct (SSR s); [done|].
    unfold onClickLiveDetection, runLiveDetection, loop_head.
    by destruct (liveDetection s).
  - by destruct (SSR s).
  - unfold handleVisibilityChange. by destruct hidden, (SSR s).
  - destruct (activations s !! rid) as [[startTime|]|]; try done.
    unfold runServerInference_resume.
    destruct (sendFrameToServer_resume_cases r now s)
      as [[_ (err & ->)]|[_ (status & result & _ & _ & ->)]]; [done|].
    simpl. destruct (on_show rid s);
      destruct (Response.detections result) as [|ds|]; simpl; try done;
      unfold drawDetections; by destruct (forEach ds []) as [[v|err] painted].
  - destruct (activations s !! rid) as [[startTime|]|]; try done.
    unfold loop_head. simpl. by destruct (liveDetection s).
Qed.

Lemma ui_step_latencies_agree (e : ui_event) u :
  inferenceTime (cam u) = serverLatency (cam u) →
  inferenceTime (cam (ui_step props e u)) = serverLatency (cam (ui_step props e u)).
Proof.
  intros Hagree. destruct e as [e|t|rid r now done]; simpl.
  - by apply step_latencies_agree.
  - destruct (SSR (cam u)); [done|]. by unfold processImage_begin.
  - destruct (photos u !! rid) as [p|]; [|done].
    unfold processImage_resume, runServerInference_on.
    destruct (sendFrameToServer_resume_cases r now (cam u))
      as [[_ (err & ->)]|[_ (status & result & _ & _ & ->)]];
      [by destruct (on_show rid (cam u))|].
    simpl. destruct (on_show rid (cam u));
      destruct (Response.detections result) as [|ds|]; simpl; try done;
      by destruct (forEach ds []) as [[v|err] painted].
Qed.

(** X15.  At every point of a session the inference time on display is
    the server latency on display: the two are set together, from the
    same difference, and nothing else sets either. *)
Theorem inference_time_is_server_latency (hidden : bool) (es : list ui_event) :
  let s := cam (ui_run props es (ui_mount props hidden)) in
  inferenceTime s = serverLatency s.
Proof.
  induction es as [|e es IH] using rev_ind; [done|].
  unfold ui_run in *. rewrite fold_left_app. simpl.
  by apply ui_step_latencies_agree.
Qed.

(** *** "Capture Photo" *)

Lemma no_image_in_boxes (ds : list Detection) :
  existsb is_image (DrawBox <$> ds) = false.
Proof. by induction ds. Qed.

Lemma boxes_shown (ds : list Detection) :
  omap (λ p, match p with DrawBox d => Some d | DrawImage _ => None end) (DrawBox <$> ds) = ds.
Proof.
  induction ds as [|d ds IH]; [done|]. rewrite fmap_cons. simpl. by f_equal.
Qed.

(** With the flag down, no event but a press raises it or sends a frame. *)
Lemma ui_step_stopped (e : ui_event) u :
  is_press e = false →
  liveDetection (cam u) = false →
  liveDetection (cam (ui_step props e u)) = false
  ∧ sent (cam (ui_step props e u)) = sent (cam u).
Proof.
  intros Hnp Hflag. destruct e as [e|t|rid r now done]; simpl in *.
  - by apply step_stopped.
  - done.
  - destruct (photos u !! rid) as [p|]; [|done].
    unfold processImage_resume.
    pose proof (runServerInference_on_same_control rid r now (box p) (cam u)) as Hsame.
    destruct (runServerInference_on rid r now (box p) (cam u)) as [[[v|err] c] s1];
      destruct Hsame as ((Hlive & _ & _ & _ & _ & Hsent & _) & _);
      destruct (on_show rid (cam u)); simpl in *; split; congruence.
Qed.

Lemma ui_run_stopped (es : list ui_event) : ∀ u,
  no_press es = true →
  liveDetection (cam u) = false →
  liveDetection (cam (ui_run props es u)) = false
  ∧ sent (cam (ui_run props es u)) = sent (cam u).
Proof.
  induction es as [|e es IH]; intros u Hnp Hflag; [done|].
  simpl in Hnp. apply andb_prop in Hnp as [He Hes]. apply negb_true_iff in He.
  destruct (ui_step_stopped e u He Hflag) as [Hflag1 Hsent1].
  destruct (IH (ui_step props e u) Hes Hflag1) as [Hflag2 Hsent2].
  simpl. split; congruence.
Qed.

(** The flag is up only while the camera view is: a turn of the loop
    always finds a canvas to capture on. *)
Lemma ui_step_running_rendered (e : ui_event) u :
  (liveDetection (cam u) = true → SSR (cam u) = false) →
  liveDetection (cam (ui_step props e u)) = true → SSR (cam (ui_step props e u)) = false.
Proof.
  intros Hinv. destruct e as [[t| |hidden|rid r now done|rid t]|t|rid r now done]; simpl.
  - destruct (SSR (cam u)) eqn:Hssr; [intros Hflag; discriminate (Hinv Hflag)|].
    unfold onClickLiveDetection, runLiveDetection, loop_head.
    by destruct (liveDetection (cam u)).
  - destruct (SSR (cam u)) eqn:Hssr; [intros Hflag; discriminate (Hinv Hflag)|done].
  - unfold handleVisibilityChange.
    by destruct hidden, (SSR (cam u)) eqn:Hssr.
  - destruct (activations (cam u) !! rid) as [[startTime|]|]; try done.
    pose proof (runServerInference_resume_same_control rid r now (cam u)) as Hsame.
    destruct (runServerInference_resume rid r now (cam u)) as [[v|err] s1];
      destruct Hsame as (Hlive & _ & Hssr & _); simpl in *; by rewrite Hlive, Hssr.
  - destruct (activations (cam u) !! rid) as [[startTime|]|]; try done.
    unfold loop_head. simpl.
    destruct (liveDetection (cam u)) eqn:Hflag; simpl; intros Hup;
      [by apply Hinv|congruence].
  - destruct (SSR (cam u)) eqn:Hssr; [intros Hflag; discriminate (Hinv Hflag)|done].
  - destruct (photos u !! rid) as [p|]; [|done].
    unfold processImage_resume.
    pose proof (runServerInference_on_same_control rid r now (box p) (cam u)) as Hsame.
    destruct (runServerInference_on rid r now (box p) (cam u)) as [[[v|err] c] s1];
      destruct Hsame as ((Hlive & _ & Hssr & _) & _);
      destruct (on_show rid (cam u)); simpl in *; by rewrite Hlive, Hssr.
Qed.

Lemma running_implies_rendered (hidden : bool) (es : list ui_event) :
  let s := cam (ui_run props es (ui_mount props hidden)) in
  liveDetection s = true → SSR s = false.
Proof.
  induction es as [|e es IH] using rev_ind; [done|].
  unfold ui_run in *. rewrite fold_left_app. simpl.
  by apply ui_step_running_rendered.
Qed.

(** A context obtained from the canvas on show is held for the request. *)
Lemma on_show_set_context (rid : nat) s : on_show rid (set_context rid s) = true.
Proof.
  unfold on_show. apply bool_decide_eq_true. simpl. by rewrite lookup_insert_eq.
Qed.

(** Obtaining a context for one request leaves the others theirs. *)
Lemma on_show_set_context_other (rid rid' : nat) s :
  on_show rid s = true → on_show rid (set_context rid' s) = true.
Proof.
  unfold on_show. rewrite !bool_decide_eq_true. simpl. intros H.
  destruct (decide (rid' = rid)) as [->|Hne].
  - by rewrite lookup_insert_eq.
  - by rewrite lookup_insert_ne.
Qed.

(** C7, as amended.  A visibility-loss signal clears the live-detection
    flag and takes the camera view down.  From then on, whatever
    happens short of a press of "Live Detection" or of "Capture Photo"
    (the resume signal, pending responses of either kind, animation
    frames and presses of "Reset" included), the flag stays down and no
    frame is captured.  The resume signal only brings the view back. *)
Theorem C7_hidden_stops_until_next_press u (es : list ui_event) :
  no_press es = true →
  let hidden := ui_step props (Live (VisibilityChange true)) u in
  let u' := ui_run props es hidden in
  let resumed := ui_step props (Live (VisibilityChange false)) hidden in
  liveDetection (cam hidden) = false ∧ SSR (cam hidden) = true
  ∧ liveDetection (cam u') = false ∧ sent (cam u') = sent (cam u)
  ∧ liveDetection (cam resumed) = false ∧ SSR (cam resumed) = false.
Proof.
  intros Hnp.
  assert (Hhidden : liveDetection (handleVisibilityChange true (cam u)) = false
                    ∧ SSR (handleVisibilityChange true (cam u)) = true
                    ∧ sent (handleVisibilityChange true (cam u)) = sent (cam u)).
  { unfold handleVisibilityChange. by destruct (SSR (cam u)). }
  destruct Hhidden as (Hflag & Hssr & Hsent).
  destruct (ui_run_stopped es (ui_step props (Live (VisibilityChange true)) u) Hnp Hflag)
    as [H1 H2].
  cbv zeta. repeat split; try done.
  - by rewrite H2.
  - simpl. unfold handleVisibilityChange at 1. rewrite Hssr. simpl. exact Hflag.
  - simpl. unfold handleVisibilityChange at 1. by rewrite Hssr.
Qed.

(** X16.  A press of "Capture Photo" ends live detection: it clears the
    flag and sends one request, for the frame it has just captured, and
    until a button is pressed again that request is the last one sent. *)
Theorem capture_photo_ends_live_detection t (es : list ui_event) u :
  SSR (cam u) = false →
  no_press es = true →
  let u' := ui_run props (ClickCapturePhoto t :: es) u in
  liveDetection (cam u') = false
  ∧ ∃ req, sent (cam u') = sent (cam u) ++ [req]
           ∧ Payload.capture_ts (body req) = captureTs t
           ∧ Payload.image_data (body req) = [DrawImage (image t)].
Proof.
  intros Hssr Hnp.
  change (ui_run props (ClickCapturePhoto t :: es) u)
    with (ui_run props es (ui_step props (ClickCapturePhoto t) u)).
  set (u1 := ui_step props (ClickCapturePhoto t) u).
  assert (H1 : liveDetection (cam u1) = false
               ∧ ∃ req, sent (cam u1) = sent (cam u) ++ [req]
                        ∧ Payload.capture_ts (body req) = captureTs t
                        ∧ Payload.image_data (body req) = [DrawImage (image t)]).
  { unfold u1. simpl. rewrite Hssr. simpl. split; [done|]. by eexists. }
  destruct H1 as (Hflag1 & req & Hsent1 & Hts & Himg). clearbody u1.
  destruct (ui_run_stopped es u1 Hnp Hflag1) as [Hflag2 Hsent2].
  cbv zeta. split; [done|]. exists req. by rewrite Hsent2.
Qed.

(** X17.  When the result of a photo arrives with a list of detections
    and the canvas the photo was taken on is still the one on show, the
    detections are painted over what that canvas holds at that moment,
    which is left in place; the total time recorded runs from the
    press. *)
Theorem photo_result_painted_over_canvas
    (rid : nat) (p : pending) (status : Z) (result : Response.t)
    (ds : list Detection) (now done : Z) u :
  photos u !! rid = Some p →
  on_show rid (cam u) = true →
  ok status = true →
  Response.detections result = Elements (Some <$> ds) →
  let u' := ui_step props (PhotoSettled rid (Http status (Some (JsonValue result))) now done) u in
  canvas (cam u') = canvas (cam u) ++ (DrawBox <$> ds)
  ∧ totalTime (cam u') = Some (done - started p)
  ∧ photos u' !! rid = None
  ∧ photo_uncaught u' = photo_uncaught u.
Proof.
  intros Hp Hshow Hok Hds. simpl. rewrite Hp.
  unfold processImage_resume, runServerInference_on,
    sendFrameToServer_resume, sendFrameToServer_try.
  rewrite Hok, Hshow. simpl. rewrite Hds. simpl. rewrite forEach_elements. simpl.
  unfold drawCanvas. rewrite no_image_in_boxes. by rewrite lookup_delete_eq.
Qed.

(** X18.  A photo taken while nothing else is pending: when its result
    arrives, the canvas shows the frozen video frame with the detections
    over it; when its request fails, the frozen frame alone.  Either
    way live detection is off and the total time runs from the press. *)
Theorem photo_shows_frozen_frame
    t r (ds : list Detection) (now done : Z) u :
  SSR (cam u) = false →
  (request_failed r = true ∧ ds = [])
  ∨ (∃ status result, r = Http status (Some (JsonValue result)) ∧ ok status = true
                      ∧ Response.detections result = Elements (Some <$> ds)) →
  let u' := ui_run props
              [ClickCapturePhoto t; PhotoSettled (length (sent (cam u))) r now done] u in
  canvas (cam u') = DrawImage (image t) :: (DrawBox <$> ds)
  ∧ totalTime (cam u') = Some (done - startTime t)
  ∧ liveDetection (cam u') = false
  ∧ photo_uncaught u' = photo_uncaught u.
Proof.
  intros Hssr Hr. unfold ui_run. cbn [fold_left].
  set (u1 := ui_step props (ClickCapturePhoto t) u).
  assert (H1 : photos u1 !! length (sent (cam u))
               = Some {| started := startTime t; box := [DrawImage (image t)] |}
               ∧ canvas (cam u1) = [DrawImage (image t)]
               ∧ liveDetection (cam u1) = false
               ∧ photo_uncaught u1 = photo_uncaught u
               ∧ on_show (length (sent (cam u))) (cam u1) = true).
  { unfold u1. simpl. rewrite Hssr. simpl. rewrite lookup_insert_eq.
    repeat split. apply bool_decide_eq_true. simpl. by rewrite lookup_insert_eq. }
  destruct H1 as (Hp & Hcanvas & Hflag & Hunc & Hshow). clearbody u1.
  simpl. rewrite Hp. unfold processImage_resume, runServerInference_on.
  rewrite Hshow.
  destruct Hr as [[Hfail ->]|(status & result & -> & Hok & Hds)].
  - destruct (sendFrameToServer_resume_cases r now (cam u1))
      as [[_ (err & ->)]|[Hnot _]]; [|congruence].
    simpl. by rewrite Hcanvas.
  - unfold sendFrameToServer_resume, sendFrameToServer_try. rewrite Hok. simpl.
    rewrite Hds. simpl. rewrite forEach_elements. simpl.
    unfold drawCanvas. rewrite no_image_in_boxes. by rewrite Hcanvas.
Qed.

(** X19.  A photo taken while live detection has a request pending, the
    camera view staying up throughout: if the live result arrives
    first, it clears the canvas, frozen frame included, and the photo's
    detections are then painted over the live ones.  The canvas ends up
    with the detections of two different frames and no video frame
    under them. *)
Theorem live_result_wipes_photo_frame
    (live : nat) (startTime : Z) t (ds_live ds_photo : list Detection)
    (c0 r0 i0 c1 r1 i1 now0 done0 now1 done1 : Z) u :
  SSR (cam u) = false →
  activations (cam u) !! live = Some (AwaitFetch startTime) →
  on_show live (cam u) = true →
  let u' := ui_run props
              [ClickCapturePhoto t;
               Live (FetchSettled live (reply c0 r0 i0 ds_live) now0 done0);
               PhotoSettled (length (sent (cam u))) (reply c1 r1 i1 ds_photo) now1 done1] u in
  canvas (cam u') = (DrawBox <$> ds_live) ++ (DrawBox <$> ds_photo)
  ∧ overlay (cam u') = ds_live ++ ds_photo.
Proof.
  intros Hssr Hact Hshow. unfold ui_run. cbn [fold_left].
  set (u1 := ui_step props (ClickCapturePhoto t) u).
  assert (H1 : photos u1 !! length (sent (cam u))
               = Some {| started := Camera.startTime t; box := [DrawImage (image t)] |}
               ∧ activations (cam u1) !! live = Some (AwaitFetch startTime)
               ∧ on_show live (cam u1) = true
               ∧ on_show (length (sent (cam u))) (cam u1) = true).
  { unfold u1. simpl. rewrite Hssr. simpl. rewrite lookup_insert_eq.
    repeat split; [done| |].
    - apply (on_show_set_context_other live (length (sent (cam u)))
               (capture (image t) (reset (cam u)))). exact Hshow.
    - apply (on_show_set_context (length (sent (cam u)))
               (capture (image t) (reset (cam u)))). }
  destruct H1 as (Hp & Hact1 & Hshow1 & Hshowp1). clearbody u1.
  set (u2 := ui_step props (Live (FetchSettled live (reply c0 r0 i0 ds_live) now0 done0)) u1).
  assert (H2 : photos u2 = photos u1 ∧ canvas (cam u2) = DrawBox <$> ds_live
               ∧ on_show (length (sent (cam u))) (cam u2) = true).
  { unfold u2. simpl. rewrite Hact1.
    destruct (runServerInference_resume_elements live 200
                {| Response.capture_ts := Some c0; Response.recv_ts := Some r0;
                   Response.inference_ts := Some i0;
                   Response.detections := Elements (Some <$> ds_live) |}
                ds_live now0 (cam u1) eq_refl eq_refl)
      as (s2 & Hrun & Hcanvas & _ & _ & _ & _ & _ & _ & Hid & Hctx).
    unfold reply. rewrite Hrun. simpl. rewrite Hshow1 in Hcanvas.
    split; [done|]. split; [done|].
    unfold on_show in *. simpl. by rewrite Hid, Hctx. }
  destruct H2 as (Hphotos & Hcanvas2 & Hshowp2). clearbody u2.
  simpl. rewrite Hphotos, Hp.
  unfold processImage_resume, runServerInference_on,
    sendFrameToServer_resume, sendFrameToServer_try.
  rewrite Hshowp2.
  simpl. rewrite forEach_elements. simpl.
  unfold drawCanvas. rewrite no_image_in_boxes. simpl. rewrite Hcanvas2.
  split; [done|]. unfold overlay. simpl. rewrite omap_app.
  f_equal; apply boxes_shown.
Qed.

(** X20.  A reply that would end an activation of the live loop ends a
    photo the same way: the exception is left uncaught, the canvas is
    not touched and the total time is not updated.  After any other
    reply nothing is left uncaught and the total time runs from the
    press. *)
Theorem photo_reply_outcome
    (rid : nat) (p : pending) r (now done : Z) u :
  photos u !! rid = Some p →
  let u' := ui_step props (PhotoSettled rid r now done) u in
  photos u' !! rid = None
  ∧ if ends_loop r then
      (∃ err, photo_uncaught u' = photo_uncaught u ++ [(rid, err)])
      ∧ canvas (cam u') = canvas (cam u)
      ∧ totalTime (cam u') = totalTime (cam u)
    else
      photo_uncaught u' = photo_uncaught u
      ∧ totalTime (cam u') = Some (done - started p).
Proof.
  intros Hp. simpl. rewrite Hp. unfold processImage_resume, runServerInference_on.
  destruct (sendFrameToServer_resume_cases r now (cam u))
    as [[Hfail (err & ->)]|[_ (status & result & -> & Hok & ->)]].
  - assert (ends_loop r = false) as ->.
    { destruct r as [|status [[|result]|]]; simpl in *; try done;
        destruct (ok status); simpl in *; done. }
    simpl. rewrite lookup_delete_eq. by destruct (on_show rid (cam u)).
  - simpl. rewrite Hok. simpl.
    destruct (Response.detections result) as [|ds|]; simpl.
    + rewrite lookup_delete_eq. by destruct (on_show rid (cam u)).
    + pose proof (forEach_completion ds []) as Hc.
      destruct (forEach ds []) as [c painted]. simpl in Hc. subst c.
      destruct (existsb is_null ds); simpl; rewrite lookup_delete_eq.
      * split; [done|]. split; [by eexists|done].
      * by destruct (on_show rid (cam u)).
    + rewrite lookup_delete_eq. split; [done|]. split; [by eexists|done].
Qed.

End WholeComponent.

(** C7 on a running loop with a photo pending: hidden, shown again, both
    pending responses and an animation frame delivered, "Reset" pressed. *)
Lemma C7_hidden_stops_until_next_press_witness :
  let hidden := Photo.ui_step props0 (Photo.Live (Camera.VisibilityChange true)) photo_pending in
  let u' := Photo.ui_run props0
              [Photo.Live (Camera.VisibilityChange false);
               Photo.Live (Camera.FetchSettled 0 (Camera.reply 1000 1050 1090 [cat]) 2100 2105);
               Photo.PhotoSettled 1 (Camera.reply 2000 2050 2090 [dog]) 2120 2125;
               Photo.Live (Camera.AnimationFrame 0 tick_2000);
               Photo.Live Camera.ClickReset] hidden in
  let resumed := Photo.ui_step props0 (Photo.Live (Camera.VisibilityChange false)) hidden in
  Camera.liveDetection (Photo.cam hidden) = false ∧ Camera.SSR (Photo.cam hidden) = true
  ∧ Camera.liveDetection (Photo.cam u') = false
  ∧ Camera.sent (Photo.cam u') = Camera.sent (Photo.cam photo_pending)
  ∧ Camera.liveDetection (Photo.cam resumed) = false
  ∧ Camera.SSR (Photo.cam resumed) = false.
Proof.
  apply (C7_hidden_stops_until_next_press props0 photo_pending). reflexivity.
Defined.

(* ===================================================================== *)
(** ** The benchmark script                                               *)
(* ===================================================================== *)

Section BenchScript.
Import Bench.

(** *** Arguments *)

Lemma parse_arg_help (arg : string) (st : options * list string) :
  HELP (parse_arg arg st).1 = HELP st.1 || not_assignment arg.
Proof.
  destruct st as [o out]. unfold parse_arg, not_assignment, is_assignment.
  destruct (starts_with "--duration=" arg), (starts_with "--mode=" arg),
    (starts_with "--output=" arg), (String.eqb arg "--help" || String.eqb arg "-h");
    simpl; by destruct (HELP o).
Qed.

Lemma fold_parse_help (args : list string) : ∀ st,
  HELP (fold_left (fun st arg => parse_arg arg st) args st).1
  = HELP st.1 || existsb not_assignment args.
Proof.
  induction args as [|arg args IH]; intros st; simpl; [by rewrite orb_false_r|].
  by rewrite IH, parse_arg_help, orb_assoc.
Qed.

(** X21.  The script shows its help and exits with status 0 exactly
    when some argument is not of the form [--duration=...],
    [--mode=...] or [--output=...]: [--help] and [-h], but also every
    unknown argument, whatever the other arguments are and before any
    of them is validated. *)
Theorem help_iff_argument_not_assignment (args : list string) :
  arguments args = ShowHelp ↔ existsb not_assignment args = true.
Proof.
  unfold arguments, parse. rewrite fold_parse_help. simpl.
  destruct (existsb not_assignment args); [done|].
  set (o := (fold_left _ args _).1).
  destruct (valid_duration (DURATION o)), (valid_mode (MODE o)); simpl; split; done.
Qed.

(** The usage line of the script's own header and help text, with the
    values as separate words, is such a case. *)
Lemma documented_usage_shows_help :
  arguments ["--duration"; "30"; "--mode"; "server"] = ShowHelp
  ∧ (parse ["--duration"; "30"; "--mode"; "server"]).2
    = ["Unknown argument: --duration"; "Unknown argument: 30";
       "Unknown argument: --mode"; "Unknown argument: server"].
Proof. by vm_compute. Qed.

(** An argument that does not match an option's pattern leaves the
    option as it is. *)
Lemma parse_arg_other (arg : string) (st : options * list string) :
  (starts_with "--duration=" arg = false → DURATION (parse_arg arg st).1 = DURATION st.1)
  ∧ (starts_with "--mode=" arg = false → MODE (parse_arg arg st).1 = MODE st.1)
  ∧ (starts_with "--output=" arg = false →
       OUTPUT_FILE (parse_arg arg st).1 = OUTPUT_FILE st.1).
Proof.
  destruct st as [o out]. unfold parse_arg.
  destruct (starts_with "--duration=" arg), (starts_with "--mode=" arg),
    (starts_with "--output=" arg), (String.eqb arg "--help" || String.eqb arg "-h");
    repeat split; intros H; try discriminate H; reflexivity.
Qed.

Lemma fold_parse_other (args : list string) : ∀ st,
  (none_matches "--duration=" args = true →
     DURATION (fold_left (fun st arg => parse_arg arg st) args st).1 = DURATION st.1)
  ∧ (none_matches "--mode=" args = true →
       MODE (fold_left (fun st arg => parse_arg arg st) args st).1 = MODE st.1)
  ∧ (none_matches "--output=" args = true →
       OUTPUT_FILE (fold_left (fun st arg => parse_arg arg st) args st).1
       = OUTPUT_FILE st.1).
Proof.
  induction args as [|arg args IH]; intros st; [done|].
  destruct (IH (parse_arg arg st)) as (Hd & Hm & Ho).
  destruct (parse_arg_other arg st) as (Hd1 & Hm1 & Ho1).
  cbn [fold_left]. unfold none_matches in *. cbn [forallb].
  repeat split; intros H; apply andb_prop in H as [H1 H2];
    apply negb_true_iff in H1.
  - rewrite (Hd H2). by apply Hd1.
  - rewrite (Hm H2). by apply Hm1.
  - rewrite (Ho H2). by apply Ho1.
Qed.

(** X22.  An option holds what its last assignment gave it: the value of
    the last argument that matches its pattern, which is all that
    follows the first [=] of that argument, further [=] signs included,
    whatever arguments come before it and whatever other arguments come
    after it; an option that no argument assigns keeps its default. *)
Theorem last_assignment_wins (before after : list string) (value : string) :
  (none_matches "--duration=" after = true →
     DURATION (parse (before ++ ["--duration=" +:+ value] ++ after)).1 = value)
  ∧ (none_matches "--mode=" after = true →
       MODE (parse (before ++ ["--mode=" +:+ value] ++ after)).1 = value)
  ∧ (none_matches "--output=" after = true →
       OUTPUT_FILE (parse (before ++ ["--output=" +:+ value] ++ after)).1 = value)
  ∧ (none_matches "--duration=" after = true → DURATION (parse after).1 = "30")
  ∧ (none_matches "--mode=" after = true → MODE (parse after).1 = "wasm")
  ∧ (none_matches "--output=" after = true →
       OUTPUT_FILE (parse after).1 = "metrics.json").
Proof.
  unfold parse. rewrite !fold_left_app. cbn [fold_left].
  repeat split; intros H.
  - destruct (fold_parse_other after
                (parse_arg ("--duration=" +:+ value)
                   (fold_left (λ st arg, parse_arg arg st) before (defaults, []))))
      as (Hd & _). rewrite (Hd H).
    by destruct (fold_left _ before _) as [o out].
  - destruct (fold_parse_other after
                (parse_arg ("--mode=" +:+ value)
                   (fold_left (λ st arg, parse_arg arg st) before (defaults, []))))
      as (_ & Hm & _). rewrite (Hm H).
    by destruct (fold_left _ before _) as [o out].
  - destruct (fold_parse_other after
                (parse_arg ("--output=" +:+ value)
                   (fold_left (λ st arg, parse_arg arg st) before (defaults, []))))
      as (_ & _ & Ho). rewrite (Ho H).
    by destruct (fold_left _ before _) as [o out].
  - destruct (fold_parse_other after (defaults, [])) as (Hd & _). by rewrite (Hd H).
  - destruct (fold_parse_other after (defaults, [])) as (_ & Hm & _). by rewrite (Hm H).
  - destruct (fold_parse_other after (defaults, [])) as (_ & _ & Ho). by rewrite (Ho H).
Qed.

(** *** Statistics *)

Lemma wrap_small (z : Z) : - 2 ^ 63 <= z < 2 ^ 63 → wrap z = z.
Proof. intros H. unfold wrap. rewrite Z.mod_small; lia. Qed.

Lemma latency_ranges (mode : string) (d : draws) :
  in_random_range d →
  within (e2e_range mode) (E2E_LATENCY mode d)
  ∧ within (server_range mode) (SERVER_LATENCY mode d)
  ∧ within network_range (NETWORK_LATENCY d).
Proof.
  intros (H1 & H2 & H3).
  unfold within, e2e_range, server_range, network_range,
    E2E_LATENCY, SERVER_LATENCY, NETWORK_LATENCY, add.
  pose proof (Z.rem_bound_pos (random1 d) 100 ltac:(lia) ltac:(lia)).
  pose proof (Z.rem_bound_pos (random1 d) 60 ltac:(lia) ltac:(lia)).
  pose proof (Z.rem_bound_pos (random2 d) 40 ltac:(lia) ltac:(lia)).
  pose proof (Z.rem_bound_pos (random2 d) 15 ltac:(lia) ltac:(lia)).
  pose proof (Z.rem_bound_pos (random3 d) 20 ltac:(lia) ltac:(lia)).
  destruct (String.eqb mode "server"); simpl; rewrite !wrap_small; lia.
Qed.

(** X23.  Each simulated latency lies in a fixed range: end-to-end
    50..149 ms in server mode and 30..89 ms otherwise, server 20..59 ms
    and 5..19 ms, network 10..29 ms.  The upper ends that the comments
    of the script name (150, 90, 60, 20, 30) are never produced. *)
Theorem simulated_latency_ranges (mode : string) (d : draws) :
  in_random_range d →
  within (e2e_range mode) (E2E_LATENCY mode d)
  ∧ within (server_range mode) (SERVER_LATENCY mode d)
  ∧ within network_range (NETWORK_LATENCY d).
Proof. apply latency_ranges. Qed.

Lemma collect_snoc (mode : string) (ds : list draws) (d : draws) :
  collect mode (ds ++ [d]) = frame mode (collect mode ds) d.
Proof. unfold collect. by rewrite fold_left_app. Qed.

Lemma collect_latencies (mode : string) (ds : list draws) :
  LATENCIES (collect mode ds) = E2E_LATENCY mode <$> ds.
Proof.
  induction ds as [|d ds IH] using rev_ind; [done|].
  rewrite collect_snoc, fmap_app. simpl. by rewrite IH.
Qed.

Lemma total_snoc (l : list Z) (x : Z) : total (l ++ [x]) = total l + x.
Proof. unfold total. induction l as [|y l IH]; simpl; lia. Qed.

(** What the loop has accumulated, as long as nothing can wrap. *)
Lemma collect_totals (mode : string) (ds : list draws) :
  Forall in_random_range ds →
  Z.of_nat (length ds) < 2 ^ 55 →
  let m := collect mode ds in
  let n := Z.of_nat (length ds) in
  FRAME_COUNT m = n
  ∧ TOTAL_E2E_LATENCY m = total (LATENCIES m)
  ∧ (e2e_range mode).1 * n <= TOTAL_E2E_LATENCY m <= (e2e_range mode).2 * n
  ∧ (server_range mode).1 * n <= TOTAL_SERVER_LATENCY m <= (server_range mode).2 * n
  ∧ network_range.1 * n <= TOTAL_NETWORK_LATENCY m <= network_range.2 * n.
Proof.
  induction ds as [|d ds IH] using rev_ind; intros Hrange Hlen.
  - simpl. unfold e2e_range, server_range.
    destruct (String.eqb mode "server"); simpl; repeat split; lia.
  - apply Forall_app in Hrange as [Hrange Hd]. rewrite Forall_singleton in Hd.
    rewrite length_app in *. simpl in Hlen.
    destruct IH as (Ic & It & Ie & Is & In); [done|lia|].
    destruct (latency_ranges mode d Hd) as (He & Hs & Hn).
    rewrite collect_snoc. simpl. rewrite total_snoc, <- It.
    unfold within, e2e_range, server_range, network_range in *.
    destruct (String.eqb mode "server"); simpl in *;
      unfold add; rewrite !wrap_small by lia; repeat split; lia.
Qed.

Lemma sorted_lookup_le (l : list Z) : StronglySorted Z.le l →
  ∀ (i j : nat) (a b : Z), (i <= j)%nat → l !! i = Some a → l !! j = Some b → a <= b.
Proof.
  induction 1 as [|x l Hsorted IH Hall]; intros i j a b Hij Hi Hj.
  - by rewrite lookup_nil in Hi.
  - destruct i as [|i], j as [|j]; simpl in *; try lia.
    + injection Hi as <-. injection Hj as <-. lia.
    + injection Hi as <-. rewrite Forall_forall in Hall.
      apply Hall, list_elem_of_lookup. by exists j.
    + apply (IH i j); [lia|done..].
Qed.

(** The statistics in closed form, when at least one frame was
    collected and nothing can wrap. *)
Lemma calculate_collected (mode : string) (ds : list draws) :
  ds ≠ [] →
  Z.of_nat (length ds) < 2 ^ 55 →
  Forall in_random_range ds →
  let m := collect mode ds in
  let n := Z.of_nat (length ds) in
  calculate m =
    Some {| MEDIAN_LATENCY := sort_n (LATENCIES m) !! Z.to_nat (n / 2);
            P95_LATENCY := sort_n (LATENCIES m) !! Z.to_nat (n * 95 / 100);
            AVG_E2E_LATENCY := TOTAL_E2E_LATENCY m / n;
            AVG_SERVER_LATENCY := TOTAL_SERVER_LATENCY m / n;
            AVG_NETWORK_LATENCY := TOTAL_NETWORK_LATENCY m / n |}.
Proof.
  intros Hne Hlen Hrange m n.
  assert (Hn : 1 <= n).
  { unfold n. destruct ds; [done|]. simpl. lia. }
  destruct (collect_totals mode ds Hrange Hlen) as (Hcount & _ & He & Hs & Hnet).
  fold m n in Hcount, He, Hs, Hnet.
  assert (Hslen : Z.of_nat (length (sort_n (LATENCIES m))) = n).
  { unfold sort_n. rewrite merge_sort_Permutation. unfold m.
    by rewrite collect_latencies, length_fmap. }
  assert (Hq : ∀ t, 0 <= t <= 2 ^ 8 * n → wrap (Z.quot t n) = t / n).
  { intros t Ht. rewrite Z.quot_div_nonneg by lia.
    apply wrap_small. split; [pose proof (Z.div_pos t n); lia|].
    apply Z.div_lt_upper_bound; nia. }
  unfold calculate. rewrite Hslen, Hcount. unfold div, mul.
  destruct (Z.eqb_spec n 0) as [|_]; [lia|]. simpl.
  rewrite (wrap_small (n * 95)) by lia.
  assert (wrap (Z.quot n 2) = n / 2) as ->.
  { rewrite Z.quot_div_nonneg by lia.
    apply wrap_small. split; [pose proof (Z.div_pos n 2); lia|].
    apply Z.div_lt_upper_bound; lia. }
  assert (wrap (Z.quot (n * 95) 100) = n * 95 / 100) as ->.
  { rewrite Z.quot_div_nonneg by lia.
    apply wrap_small. split; [pose proof (Z.div_pos (n * 95) 100); lia|].
    apply Z.div_lt_upper_bound; lia. }
  unfold within, e2e_range, server_range, network_range in *.
  rewrite !Hq by (destruct (String.eqb mode "server"); simpl in *; lia).
  unfold element.
  destruct (Z.ltb_spec (n / 2) 0) as [Hneg|_];
    [pose proof (Z.div_pos n 2); lia|].
  destruct (Z.ltb_spec (n * 95 / 100) 0) as [Hneg|_];
    [pose proof (Z.div_pos (n * 95) 100); lia|].
  done.
Qed.

(** X24.  With at least one frame collected (and fewer than 2^55), the
    statistics are computed, and both percentiles are latencies that
    were collected: the median is the sorted sample at index
    count / 2, the 95th percentile the one at index count * 95 / 100,
    both indices fall inside the array, the median is at most the 95th
    percentile, and both lie in the range of the mode. *)
Theorem percentiles_of_collected_latencies (mode : string) (ds : list draws) :
  ds ≠ [] →
  Z.of_nat (length ds) < 2 ^ 55 →
  Forall in_random_range ds →
  let m := collect mode ds in
  let n := Z.of_nat (length ds) in
  ∃ st median p95,
    calculate m = Some st
    ∧ MEDIAN_LATENCY st = Some median
    ∧ sort_n (LATENCIES m) !! Z.to_nat (n / 2) = Some median
    ∧ P95_LATENCY st = Some p95
    ∧ sort_n (LATENCIES m) !! Z.to_nat (n * 95 / 100) = Some p95
    ∧ median ∈ LATENCIES m ∧ p95 ∈ LATENCIES m
    ∧ median <= p95
    ∧ within (e2e_range mode) median ∧ within (e2e_range mode) p95.
Proof.
  intros Hne Hlen Hrange m n.
  assert (Hn : 1 <= n).
  { unfold n. destruct ds; [done|]. simpl. lia. }
  pose proof (calculate_collected mode ds Hne Hlen Hrange) as Hcalc.
  fold m n in Hcalc. cbv zeta in Hcalc.
  set (sorted := sort_n (LATENCIES m)) in *.
  assert (Hperm : sorted ≡ₚ LATENCIES m) by apply merge_sort_Permutation.
  assert (Hsorted : StronglySorted Z.le sorted) by apply (StronglySorted_merge_sort _).
  assert (Hslen : Z.of_nat (length sorted) = n).
  { rewrite Hperm. unfold m. by rewrite collect_latencies, length_fmap. }
  assert (Hin : ∀ x, x ∈ sorted → x ∈ LATENCIES m ∧ within (e2e_range mode) x).
  { intros x Hx. rewrite Hperm in Hx. split; [done|].
    unfold m in Hx. rewrite collect_latencies in Hx.
    apply list_elem_of_fmap in Hx as (d & -> & Hd).
    rewrite Forall_forall in Hrange.
    by apply (latency_ranges mode d), Hrange. }
  assert (Hmi : (Z.to_nat (n / 2) < length sorted)%nat).
  { apply Nat2Z.inj_lt. rewrite Hslen, Z2Nat.id; [|apply Z.div_pos; lia].
    apply Z.div_lt; lia. }
  assert (Hpi : (Z.to_nat (n * 95 / 100) < length sorted)%nat).
  { apply Nat2Z.inj_lt. rewrite Hslen, Z2Nat.id; [|apply Z.div_pos; lia].
    apply Z.div_lt_upper_bound; lia. }
  destruct (lookup_lt_is_Some_2 _ _ Hmi) as [median Hmedian].
  destruct (lookup_lt_is_Some_2 _ _ Hpi) as [p95 Hp95].
  rewrite Hmedian, Hp95 in Hcalc.
  eexists. exists median, p95. split; [exact Hcalc|]. simpl.
  destruct (Hin median) as [Hm1 Hm2]; [by eapply list_elem_of_lookup_2|].
  destruct (Hin p95) as [Hp1 Hp2]; [by eapply list_elem_of_lookup_2|].
  destruct Hm2, Hp2. repeat split; try done.
  apply (sorted_lookup_le sorted Hsorted (Z.to_nat (n / 2)) (Z.to_nat (n * 95 / 100)));
    [|done..].
  apply Z2Nat.inj_le; [apply Z.div_pos; lia..|].
  apply Z.div_le_lower_bound; [lia|].
  pose proof (Z.mul_div_le n 2). lia.
Qed.

(** X25.  With at least one frame collected (and fewer than 2^55), each
    average is the total divided by the number of frames, rounded down:
    for the end-to-end latency, average * count <= sum of the latencies
    < (average + 1) * count; and each average lies in the range of its
    latency. *)
Theorem averages_of_collected_latencies (mode : string) (ds : list draws) :
  ds ≠ [] →
  Z.of_nat (length ds) < 2 ^ 55 →
  Forall in_random_range ds →
  let m := collect mode ds in
  let n := Z.of_nat (length ds) in
  ∃ st,
    calculate m = Some st
    ∧ AVG_E2E_LATENCY st * n <= total (LATENCIES m) < (AVG_E2E_LATENCY st + 1) * n
    ∧ within (e2e_range mode) (AVG_E2E_LATENCY st)
    ∧ within (server_range mode) (AVG_SERVER_LATENCY st)
    ∧ within network_range (AVG_NETWORK_LATENCY st).
Proof.
  intros Hne Hlen Hrange m n.
  pose proof (calculate_collected mode ds Hne Hlen Hrange) as Hcalc.
  fold m n in Hcalc. cbv zeta in Hcalc.
  destruct (collect_totals mode ds Hrange Hlen) as (Hcount & Ht & He & Hs & Hn).
  fold m n in Hcount, Ht, He, Hs, Hn.
  assert (H1 : 1 <= n).
  { unfold n. destruct ds; [done|]. simpl. lia. }
  eexists. split; [exact Hcalc|]. simpl. rewrite <- Ht.
  unfold within, e2e_range, server_range, network_range in *.
  assert (Hq : ∀ lo hi t, lo * n <= t <= hi * n →
                 t / n * n <= t < (t / n + 1) * n ∧ lo <= t / n <= hi).
  { intros lo hi t Ht'.
    pose proof (Z.mul_div_le t n ltac:(lia)).
    pose proof (Z.mul_succ_div_gt t n ltac:(lia)).
    split; [lia|]. split; [apply Z.div_le_lower_bound; lia|].
    apply Z.div_le_upper_bound; lia. }
  destruct (String.eqb mode "server"); simpl in *.
  - destruct (Hq 50 149 _ He) as [? ?].
    destruct (Hq 20 59 _ Hs) as [_ ?].
    destruct (Hq 10 29 _ Hn) as [_ ?]. done.
  - destruct (Hq 30 89 _ He) as [? ?].
    destruct (Hq 5 19 _ Hs) as [_ ?].
    destruct (Hq 10 29 _ Hn) as [_ ?]. done.
Qed.

End BenchScript.

(* ===================================================================== *)
(** ** The colours of a box                                               *)
(* ===================================================================== *)

Section BoxStyle.
Import Style.

Lemma append_cons (c : ascii) (s t : string) : String c s +:+ t = String c (s +:+ t).
Proof. reflexivity. Qed.

Lemma append_nil (t : string) : "" +:+ t = t.
Proof. reflexivity. Qed.

Lemma replace_paren_after (replacement s rest : string) :
  no_paren s = true →
  replace ")" replacement (s +:+ String ")"%char rest) = s +:+ replacement +:+ rest.
Proof.
  induction s as [|c s IH]; intros Hs.
  - rewrite !append_nil. reflexivity.
  - simpl in Hs. apply andb_prop in Hs as [Hc Hs]. apply negb_true_iff in Hc.
    rewrite !append_cons. simpl. rewrite Hc. by rewrite IH.
Qed.

Lemma no_paren_app (s1 s2 : string) :
  no_paren (s1 +:+ s2) = no_paren s1 && no_paren s2.
Proof.
  induction s1 as [|c s1 IH]; [done|].
  rewrite append_cons. simpl. by rewrite IH, andb_assoc.
Qed.

Lemma string_app_assoc (s1 s2 s3 : string) : (s1 +:+ s2) +:+ s3 = s1 +:+ (s2 +:+ s3).
Proof.
  induction s1 as [|c s1 IH]; [done|]. rewrite !append_cons. by f_equal.
Qed.

(** X26.  The fill of a box is its stroke colour at opacity 0.2: for
    channel values that print without a closing parenthesis (as every
    number does), the two replacements of line 186 turn
    [rgb(r,g,0)] into [rgba(r,g,0, 0.2)]. *)
Theorem fill_is_stroke_colour_at_one_fifth (r g : string) :
  no_paren r = true → no_paren g = true →
  fillStyle (rgb r g) = "rgba(" +:+ r +:+ "," +:+ g +:+ ",0, 0.2)".
Proof.
  intros Hr Hg. unfold fillStyle, rgb.
  assert (replace ")" ", 0.2)" ("rgb(" +:+ r +:+ "," +:+ g +:+ ",0)")
          = "rgb(" +:+ r +:+ "," +:+ g +:+ ",0, 0.2)") as ->.
  { change ("rgb(" +:+ r +:+ "," +:+ g +:+ ",0)")
      with ("rgb(" +:+ r +:+ "," +:+ g +:+ ",0" +:+ String ")"%char "").
    rewrite <- !string_app_assoc.
    rewrite replace_paren_after.
    - by rewrite !string_app_assoc.
    - rewrite !no_paren_app, Hr, Hg. reflexivity. }
  reflexivity.
Qed.

End BoxStyle.

(* ===================================================================== *)
(** ** The further properties at the sample inputs                        *)
(* ===================================================================== *)

(** X1 on the queue that [__init__ 5] builds. *)
Lemma add_frames_without_attribute_witness :
  FrameQueue.add_frames (FrameQueue.__init__ 5) ["f1"; "f2"]
    = FrameQueue.Raise (FrameQueue.AttributeError "max_size")
  ∧ ∀ N : nat, FrameQueue.add_frames (FrameQueue.__init__ N) ["f1"; "f2"]
               = FrameQueue.Raise (FrameQueue.AttributeError "max_size").
Proof.
  apply (add_frames_without_attribute (FrameQueue.__init__ 5) "f1" ["f2"]). reflexivity.
Defined.

(** X2 at capacity 2: three frames offered, two held and one dropped. *)
Lemma add_frames_accounts_for_every_frame_witness :
  ∃ self', FrameQueue.add_frames queue_of_two ["f1"; "f2"; "f3"]
             = FrameQueue.Ok (replicate 3 None, self')
    ∧ (FrameQueue.len (FrameQueue.queue self') + FrameQueue.dropped_frames self'
       = 0 + 0 + 3)%nat
    ∧ FrameQueue.well_formed 2 self'.
Proof.
  apply (add_frames_accounts_for_every_frame 2 queue_of_two ["f1"; "f2"; "f3"]).
  - unfold FrameQueue.well_formed, FrameQueue.len. simpl. repeat split; lia.
  - lia.
Defined.

(** X3 at capacity 2: of f1, f2, f3 the last two are held. *)
Lemma add_frames_keeps_most_recent_witness :
  ∃ self', FrameQueue.add_frames queue_of_two ["f1"; "f2"; "f3"]
             = FrameQueue.Ok (replicate 3 None, self')
    ∧ FrameQueue.items (FrameQueue.queue self') = drop (3 - 2) ["f1"; "f2"; "f3"]
    ∧ FrameQueue.dropped_frames self' = (0 + (3 - 2))%nat.
Proof.
  apply (add_frames_keeps_most_recent 2 queue_of_two ["f1"; "f2"; "f3"]).
  - unfold FrameQueue.well_formed, FrameQueue.len. simpl. repeat split; lia.
  - lia.
Defined.

(** X4 on a full queue of capacity 2. *)
Lemma add_frame_queue_is_append_witness :
  ∃ self', FrameQueue.add_frame queue_full_two "f3" = FrameQueue.Ok (None, self')
    ∧ FrameQueue.queue self' = FrameQueue.append "f3" (FrameQueue.queue queue_full_two)
    ∧ FrameQueue.dropped_frames self'
      = (0 + if decide (FrameQueue.len (FrameQueue.queue queue_full_two) = 2%nat)
             then 1 else 0)%nat.
Proof.
  apply (add_frame_queue_is_append 2 queue_full_two "f3").
  - unfold FrameQueue.well_formed, FrameQueue.len. simpl. repeat split; lia.
  - lia.
Defined.

(** X5 on a reply whose recv_ts precedes its capture_ts. *)
Lemma sendFrameToServer_effects_witness :
  if Camera.request_failed (Camera.reply 1000 900 940 []) then
    ∃ err, Camera.sendFrameToServer_resume (Camera.reply 1000 900 940 []) 1120 live_1000
           = (Js.Normal None, Camera.console_error err live_1000)
  else
    ∃ status result s',
      Camera.reply 1000 900 940 [] = Camera.Http status (Some (Camera.JsonValue result))
      ∧ Camera.sendFrameToServer_resume (Camera.reply 1000 900 940 []) 1120 live_1000
        = (Js.Normal (Some result), s')
      ∧ Camera.console s' = Camera.console live_1000
      ∧ Camera.networkLatency s'
        = Js.sub (Camera.Response.recv_ts result) (Camera.Response.capture_ts result)
      ∧ Camera.serverLatency s'
        = Js.sub (Camera.Response.inference_ts result) (Camera.Response.recv_ts result)
      ∧ Camera.inferenceTime s' = Camera.serverLatency s'
      ∧ Camera.totalTime s' = Camera.totalTime live_1000.
Proof.
  apply (sendFrameToServer_effects (Camera.reply 1000 900 940 []) 1120 live_1000).
  unfold Camera.safe_reply, Js.safe. simpl. lia.
Defined.

(** X6 on the first frame of a live loop. *)
Lemma reply_without_recv_ts_witness :
  let s' := Camera.step props0
              (Camera.FetchSettled 0
                 (Camera.Http 200 (Some (Camera.JsonValue result_without_recv_ts)))
                 1120 1125) live_1000 in
  Camera.networkLatency s' = Js.NaN ∧ Camera.serverLatency s' = Js.NaN
  ∧ Camera.inferenceTime s' = Js.NaN
  ∧ Camera.totalTime s' = Some (1125 - 990)
  ∧ Camera.overlay s' = [cat]
  ∧ Camera.drawn s' = Camera.drawn live_1000 ++ [0%nat]
  ∧ Camera.activations s' !! 0%nat = Some Camera.AwaitFrame.
Proof.
  apply (reply_without_recv_ts props0 0 990 200 result_without_recv_ts [cat] 1120 1125
           live_1000); reflexivity.
Defined.

(** X7 on a reply whose detections are not an array. *)
Lemma reply_ends_loop_iff_witness :
  let s' := Camera.step props0 (Camera.FetchSettled 0 Camera.reply_without_array 1120 1125)
              live_1000 in
  if ends_loop Camera.reply_without_array then
    Camera.activations s' !! 0%nat = None
    ∧ (∃ err, Camera.uncaught s' = Camera.uncaught live_1000 ++ [(0%nat, err)])
    ∧ Camera.totalTime s' = Camera.totalTime live_1000
  else
    Camera.activations s' !! 0%nat = Some Camera.AwaitFrame
    ∧ Camera.uncaught s' = Camera.uncaught live_1000
    ∧ Camera.totalTime s' = Some (1125 - 990).
Proof.
  apply (reply_ends_loop_iff props0 0 990 Camera.reply_without_array 1120 1125 live_1000).
  reflexivity.
Defined.

(** X8 on the detections [cat, null, dog]. *)
Lemma null_detection_draws_prefix_witness :
  let s' := Camera.step props0
              (Camera.FetchSettled 0
                 (Camera.Http 200 (Some (Camera.JsonValue result_with_null))) 1120 1125)
              live_1000 in
  Camera.overlay s' = [cat]
  ∧ Camera.activations s' !! 0%nat = None
  ∧ Camera.uncaught s'
    = Camera.uncaught live_1000 ++ [(0%nat, Js.TypeError "Cannot destructure null")].
Proof.
  apply (null_detection_draws_prefix props0 0 990 200 result_with_null [cat] [Some dog]
           1120 1125 live_1000); reflexivity.
Defined.

(** X9 on a second turn whose request fails like the first. *)
Lemma failed_turn_shows_no_detections_witness :
  let s' := Camera.run props0
              [Camera.AnimationFrame 0 tick_2000;
               Camera.FetchSettled (length (Camera.sent after_network_error))
                 Camera.NetworkError 2120 2125] after_network_error in
  Camera.canvas s' = [Camera.DrawImage (Camera.image tick_2000)]
  ∧ Camera.overlay s' = []
  ∧ Camera.activations s' !! length (Camera.sent after_network_error)
    = Some Camera.AwaitFrame
  ∧ length (Camera.sent s') = S (length (Camera.sent after_network_error)).
Proof.
  apply (failed_turn_shows_no_detections props0 0 tick_2000 Camera.NetworkError 2120 2125
           after_network_error); reflexivity.
Defined.


(** X11 on a running loop. *)
Lemma reset_then_result_redraws_witness :
  let s1 := Camera.step props0 Camera.ClickReset live_1000 in
  let s2 := Camera.step props0
              (Camera.FetchSettled 0 (Camera.Http 200 (Some (Camera.JsonValue result_with_cat)))
                 1120 1125) s1 in
  Camera.liveDetection s1 = false
  ∧ Camera.activations s1 !! 0%nat = Some (Camera.AwaitFetch 990)
  ∧ Camera.overlay s2 = [cat] ∧ Camera.liveDetection s2 = false.
Proof.
  apply (reset_then_result_redraws props0 0 990 200 result_with_cat [cat] 1120 1125 live_1000);
    reflexivity.
Defined.

(** X12 on one press, one response and one animation frame. *)
Lemma single_start_single_request_witness :
  (length (Camera.in_flight
     (Camera.run props0
        (Camera.ClickLiveDetection tick_1000 ::
           [Camera.FetchSettled 0 (Camera.reply 1000 1050 1090 [cat]) 1120 1125;
            Camera.AnimationFrame 0 tick_2000])
        (Camera.mount props0 false))) <= 1)%nat.
Proof.
  apply (single_start_single_request props0 false tick_1000). reflexivity.
Defined.

(** X14 on a session of two live frames and one photo. *)
Lemma frame_ids_distinct_across_paths_witness :
  let s := Photo.cam (Photo.ui_run props0 mixed_session (Photo.ui_mount props0 false)) in
  length (Camera.sent s) = 3%nat
  ∧ (∀ (i : nat) (req : Camera.Request), Camera.sent s !! i = Some req →
       Camera.Payload.frame_id (Camera.body req) = "frame_" +:+ pretty (Z.of_nat i))
  ∧ NoDup (Camera.Payload.frame_id ∘ Camera.body <$> Camera.sent s).
Proof.
  split; [reflexivity|].
  apply (frame_ids_distinct_across_paths props0 false mixed_session).
  vm_compute. discriminate.
Defined.

(** X16 on a running loop whose response and animation frame come after the press. *)
Lemma capture_photo_ends_live_detection_witness :
  let u' := Photo.ui_run props0
              (Photo.ClickCapturePhoto tick_2000 ::
                 [Photo.Live (Camera.FetchSettled 0 (Camera.reply 1000 1050 1090 [cat]) 1120 1125);
                  Photo.Live (Camera.AnimationFrame 0 tick_2000)]) live_ui in
  Camera.liveDetection (Photo.cam u') = false
  ∧ ∃ req, Camera.sent (Photo.cam u') = Camera.sent (Photo.cam live_ui) ++ [req]
           ∧ Camera.Payload.capture_ts (Camera.body req) = Camera.captureTs tick_2000
           ∧ Camera.Payload.image_data (Camera.body req)
             = [Camera.DrawImage (Camera.image tick_2000)].
Proof.
  apply (capture_photo_ends_live_detection props0 tick_2000); reflexivity.
Defined.

(** X17 on a photo taken while live detection had a request pending. *)
Lemma photo_result_painted_over_canvas_witness :
  let u' := Photo.ui_step props0
              (Photo.PhotoSettled 1 (Camera.Http 200 (Some (Camera.JsonValue result_with_cat)))
                 2120 2125) photo_pending in
  Camera.canvas (Photo.cam u') = Camera.canvas (Photo.cam photo_pending) ++ (Camera.DrawBox <$> [cat])
  ∧ Camera.totalTime (Photo.cam u') = Some (2125 - 1990)
  ∧ Photo.photos u' !! 1%nat = None
  ∧ Photo.photo_uncaught u' = Photo.photo_uncaught photo_pending.
Proof.
  apply (photo_result_painted_over_canvas props0 1
           {| Photo.started := 1990; Photo.box := [Camera.DrawImage "frame at 2000"] |}
           200 result_with_cat [cat] 2120 2125 photo_pending); reflexivity.
Defined.

(** X18 on a photo whose request fails. *)
Lemma photo_shows_frozen_frame_witness :
  let u' := Photo.ui_run props0
              [Photo.ClickCapturePhoto tick_2000;
               Photo.PhotoSettled (length (Camera.sent (Photo.cam live_ui)))
                 Camera.NetworkError 2120 2125] live_ui in
  Camera.canvas (Photo.cam u') = Camera.DrawImage (Camera.image tick_2000) :: (Camera.DrawBox <$> [])
  ∧ Camera.totalTime (Photo.cam u') = Some (2125 - Camera.startTime tick_2000)
  ∧ Camera.liveDetection (Photo.cam u') = false
  ∧ Photo.photo_uncaught u' = Photo.photo_uncaught live_ui.
Proof.
  apply (photo_shows_frozen_frame props0 tick_2000 Camera.NetworkError [] 2120 2125 live_ui).
  - reflexivity.
  - left. split; reflexivity.
Defined.

(** X19 on a running loop. *)
Lemma live_result_wipes_photo_frame_witness :
  let u' := Photo.ui_run props0
              [Photo.ClickCapturePhoto tick_2000;
               Photo.Live (Camera.FetchSettled 0 (Camera.reply 1000 1050 1090 [cat]) 2100 2105);
               Photo.PhotoSettled (length (Camera.sent (Photo.cam live_ui)))
                 (Camera.reply 2000 2050 2090 [dog]) 2120 2125] live_ui in
  Camera.canvas (Photo.cam u') = (Camera.DrawBox <$> [cat]) ++ (Camera.DrawBox <$> [dog])
  ∧ Camera.overlay (Photo.cam u') = [cat] ++ [dog].
Proof.
  apply (live_result_wipes_photo_frame props0 0 990 tick_2000 [cat] [dog]
           1000 1050 1090 2000 2050 2090 2100 2105 2120 2125 live_ui); reflexivity.
Defined.

(** X20 on a reply whose detections are not an array. *)
Lemma photo_reply_outcome_witness :
  let u' := Photo.ui_step props0 (Photo.PhotoSettled 1 Camera.reply_without_array 2120 2125)
              photo_pending in
  Photo.photos u' !! 1%nat = None
  ∧ if ends_loop Camera.reply_without_array then
      (∃ err, Photo.photo_uncaught u' = Photo.photo_uncaught photo_pending ++ [(1%nat, err)])
      ∧ Camera.canvas (Photo.cam u') = Camera.canvas (Photo.cam photo_pending)
      ∧ Camera.totalTime (Photo.cam u') = Camera.totalTime (Photo.cam photo_pending)
    else
      Photo.photo_uncaught u' = Photo.photo_uncaught photo_pending
      ∧ Camera.totalTime (Photo.cam u') = Some (2125 - 1990).
Proof.
  apply (photo_reply_outcome props0 1
           {| Photo.started := 1990; Photo.box := [Camera.DrawImage "frame at 2000"] |}
           Camera.reply_without_array 2120 2125 photo_pending).
  reflexivity.
Defined.

(** X22 on a duration given twice, with another option and a stray word
    after it: the second value stands. *)
Lemma last_assignment_wins_witness :
  Bench.DURATION
    (Bench.parse (["--duration=5"; "--mode=wasm"] ++ ["--duration=" +:+ "10=x"]
                    ++ ["--mode=server"; "fast"])).1 = "10=x".
Proof.
  destruct (last_assignment_wins ["--duration=5"; "--mode=wasm"] ["--mode=server"; "fast"]
              "10=x") as (H & _).
  exact (H eq_refl).
Defined.

(** X23 on the largest value of [$RANDOM]. *)
Lemma simulated_latency_ranges_witness :
  Bench.within (Bench.e2e_range "server")
    (Bench.E2E_LATENCY "server"
       {| Bench.random1 := 32767; Bench.random2 := 39; Bench.random3 := 19 |})
  ∧ Bench.within (Bench.server_range "server")
      (Bench.SERVER_LATENCY "server"
         {| Bench.random1 := 32767; Bench.random2 := 39; Bench.random3 := 19 |})
  ∧ Bench.within Bench.network_range
      (Bench.NETWORK_LATENCY
         {| Bench.random1 := 32767; Bench.random2 := 39; Bench.random3 := 19 |}).
Proof.
  apply (simulated_latency_ranges "server"
           {| Bench.random1 := 32767; Bench.random2 := 39; Bench.random3 := 19 |}).
  unfold Bench.in_random_range. simpl. lia.
Defined.

(** The sample draws are values of [$RANDOM]. *)
Lemma three_draws_in_range : Forall Bench.in_random_range three_draws.
Proof. repeat constructor; simpl; lia. Qed.

(** X24 on three frames in server mode. *)
Lemma percentiles_of_collected_latencies_witness :
  let m := Bench.collect "server" three_draws in
  ∃ st median p95,
    Bench.calculate m = Some st
    ∧ Bench.MEDIAN_LATENCY st = Some median
    ∧ Bench.sort_n (Bench.LATENCIES m) !! Z.to_nat (3 / 2) = Some median
    ∧ Bench.P95_LATENCY st = Some p95
    ∧ Bench.sort_n (Bench.LATENCIES m) !! Z.to_nat (3 * 95 / 100) = Some p95
    ∧ median ∈ Bench.LATENCIES m ∧ p95 ∈ Bench.LATENCIES m
    ∧ median <= p95
    ∧ Bench.within (Bench.e2e_range "server") median
    ∧ Bench.within (Bench.e2e_range "server") p95.
Proof.
  apply (percentiles_of_collected_latencies "server" three_draws).
  - discriminate.
  - simpl. lia.
  - exact three_draws_in_range.
Defined.

(** X25 on three frames in server mode. *)
Lemma averages_of_collected_latencies_witness :
  let m := Bench.collect "server" three_draws in
  ∃ st,
    Bench.calculate m = Some st
    ∧ Bench.AVG_E2E_LATENCY st * 3 <= Bench.total (Bench.LATENCIES m)
      < (Bench.AVG_E2E_LATENCY st + 1) * 3
    ∧ Bench.within (Bench.e2e_range "server") (Bench.AVG_E2E_LATENCY st)
    ∧ Bench.within (Bench.server_range "server") (Bench.AVG_SERVER_LATENCY st)
    ∧ Bench.within Bench.network_range (Bench.AVG_NETWORK_LATENCY st).
Proof.
  apply (averages_of_collected_latencies "server" three_draws).
  - discriminate.
  - simpl. lia.
  - exact three_draws_in_range.
Defined.

(** X26 on the channel values 26 and 230. *)
Lemma fill_is_stroke_colour_at_one_fifth_witness :
  Style.fillStyle (Style.rgb "26" "230") = "rgba(26,230,0, 0.2)".
Proof.
  apply (fill_is_stroke_colour_at_one_fifth "26" "230"); reflexivity.
Defined.
